(** * AccentFlow (src/app.py): session state machine and its two clients

    A shallow embedding of the Streamlit script [src/app.py].  The script
    keeps three keys in [st.session_state] ('text', 'run', 'status'), calls
    the speech recogniser from [listen_and_transcribe] and AWS Polly from
    [text_to_speech].  The outside world (microphone, Google Web Speech,
    boto3, the temporary file) is an oracle record handed to each call; every
    call to it and every Streamlit output is appended to a log, so that
    "the client was invoked" and "audio was played" are facts about the log. *)

From Stdlib Require Import String Ascii List Bool Arith Lia.
From Stdlib.Strings Require Import Byte.
Import ListNotations.
Open Scope string_scope.

(** ** Python values the script handles *)

(** The exception classes the handlers of [listen_and_transcribe] tell apart.
    All four are subclasses of Python's [Exception]; [OtherException] stands
    for every subclass of [Exception] that is none of the first three. *)
Inductive exn_class : Type :=
| UnknownValueError   (* sr.UnknownValueError: speech was unintelligible *)
| WaitTimeoutError    (* sr.WaitTimeoutError: no phrase started in time   *)
| RequestError        (* sr.RequestError: the recognition request failed  *)
| OtherException.     (* any other Exception                              *)

(** An exception instance: its class and [str(e)], which the f-strings of the
    handlers interpolate. *)
Record exn : Type := mk_exn { exn_cls : exn_class; exn_str : string }.

(** Raw audio: what [recognizer.listen] captures and what Polly streams back. *)
Definition audio_data : Type := list byte.

(** Outcome of a Python call: a value, or a raised exception. *)
Inductive result (A : Type) : Type :=
| Return (a : A)
| Raise (e : exn).
Arguments Return {A} a.
Arguments Raise {A} e.

(** ** Session state (app.py lines 30-36) *)

Record session_state : Type := mk_session {
  text : string;     (* st.session_state['text']   *)
  run : bool;        (* st.session_state['run']    *)
  status : string    (* st.session_state['status'] *)
}.

Definition initial_session_state : session_state :=
  {| text := ""; run := false; status := "Ready to start recording." |}.

(** ** The log of outputs and external calls *)

Inductive event : Type :=
| ev_st_error (msg : string)
| ev_st_warning (msg : string)
| ev_st_subheader (body : string)
| ev_st_markdown (body : string)
| ev_st_audio (path : string) (format : string) (autoplay : bool)
| ev_print (line : string)
| ev_Microphone
| ev_listen (timeout phrase_time_limit : nat)
| ev_recognize_google (audio : audio_data)
| ev_boto3_client (service : string)
| ev_synthesize_speech (Text OutputFormat VoiceId : string)
| ev_NamedTemporaryFile (suffix : string)
| ev_write (name : string) (data : audio_data).

Record machine : Type := mk_machine {
  session : session_state;
  log : list event
}.

Definition initial_machine : machine :=
  {| session := initial_session_state; log := [] |}.

(** ** The outside world *)

(** What the speech_recognition library does during one call of
    [listen_and_transcribe]. *)
Record speech_world : Type := mk_speech_world {
  (* sr.Recognizer(), sr.Microphone(), entering the with block and
     adjust_for_ambient_noise: [Some e] when one of them raises e *)
  w_Microphone : option exn;
  (* recognizer.listen(source, timeout=5, phrase_time_limit=5) *)
  w_listen : result audio_data;
  (* recognizer.recognize_google(audio) *)
  w_recognize_google : audio_data -> result string;
  (* print(transcribed_text): writing the line to standard output, which
     raises when the stream cannot encode the text or is closed *)
  w_print : string -> result unit
}.

(** The response of [polly.synthesize_speech]: reading its 'AudioStream'. *)
Record polly_response : Type := mk_polly_response {
  AudioStream_read : result audio_data
}.

(** What boto3, Polly and the file system do during one call of
    [text_to_speech]. *)
Record polly_world : Type := mk_polly_world {
  (* boto3.client('polly', ...): the client, or a raised exception *)
  w_boto3_client : result unit;
  (* polly.synthesize_speech(Text=, OutputFormat=, VoiceId=) *)
  w_synthesize_speech : string -> string -> string -> result polly_response;
  (* NamedTemporaryFile(delete=False, suffix=".mp3"): the file's name *)
  w_NamedTemporaryFile : result string;
  (* audio_file.write(data); audio_file.close() *)
  w_write : audio_data -> result unit
}.

(** ** A state-and-exception monad for the script

    Python keeps the mutations made before an exception is raised, so a
    computation returns the machine also when it raises. *)

Definition py (A : Type) : Type := machine -> result A * machine.

Definition ret {A} (a : A) : py A := fun m => (Return a, m).

Definition raise {A} (e : exn) : py A := fun m => (Raise e, m).

Definition bind {A B} (c : py A) (k : A -> py B) : py B :=
  fun m =>
    match c m with
    | (Return a, m') => k a m'
    | (Raise e, m') => (Raise e, m')
    end.

(** [try: body / except Exception as e: handler e]. *)
Definition try_except {A} (body : py A) (handler : exn -> py A) : py A :=
  fun m =>
    match body m with
    | (Return a, m') => (Return a, m')
    | (Raise e, m') => handler e m'
    end.

Notation "x <- c1 ;; c2" := (bind c1 (fun x => c2))
  (at level 61, c1 at next level, right associativity).
Notation "c1 ;; c2" := (bind c1 (fun _ => c2))
  (at level 61, right associativity).

Definition call {A} (r : result A) : py A := fun m => (r, m).

Definition emit (e : event) : py unit :=
  fun m => (Return tt, {| session := session m; log := log m ++ [e] |}).

Definition get_session : py session_state := fun m => (Return (session m), m).

Definition set_text (v : string) : py unit :=
  fun m => (Return tt,
            {| session := {| text := v; run := run (session m);
                             status := status (session m) |};
               log := log m |}).

Definition set_run (v : bool) : py unit :=
  fun m => (Return tt,
            {| session := {| text := text (session m); run := v;
                             status := status (session m) |};
               log := log m |}).

Definition set_status (v : string) : py unit :=
  fun m => (Return tt,
            {| session := {| text := text (session m); run := run (session m);
                             status := v |};
               log := log m |}).

(** Python truthiness of a [str]: non-empty. *)
Definition truthy (s : string) : bool :=
  match s with
  | EmptyString => false
  | String _ _ => true
  end.

(** ** The functions of app.py *)

(** [start_transcription] (lines 39-42). *)
Definition start_transcription : py unit :=
  set_run true ;;
  set_text "" ;;
  set_status "Recording started. Please speak clearly.".

(** [stop_transcription] (lines 44-46). *)
Definition stop_transcription : py unit :=
  set_run false ;;
  set_status "Recording stopped. Processing final text...".

(** [initialize_polly_client] (lines 17-28): [None] is Python's None. *)
Definition initialize_polly_client (w : polly_world) : py (option unit) :=
  try_except
    (emit (ev_boto3_client "polly") ;;
     c <- call (w_boto3_client w) ;;
     ret (Some c))
    (fun e =>
       emit (ev_st_error ("Error initializing AWS Polly client: " ++ exn_str e)) ;;
       ret None).

(** The default of [text_to_speech]'s parameter [voice_id]. *)
Definition default_voice_id : string := "Aditi".

(** [text_to_speech] (lines 49-62): the name of the mp3 file, or None. *)
Definition text_to_speech (w : polly_world) (txt : string) (voice_id : string)
  : py (option string) :=
  polly <- initialize_polly_client w ;;
  match polly with
  | None => ret None
  | Some _ =>
      try_except
        (emit (ev_synthesize_speech txt "mp3" voice_id) ;;
         response <- call (w_synthesize_speech w txt "mp3" voice_id) ;;
         emit (ev_NamedTemporaryFile ".mp3") ;;
         name <- call (w_NamedTemporaryFile w) ;;
         data <- call (AudioStream_read response) ;;
         emit (ev_write name data) ;;
         call (w_write w data) ;;
         ret (Some name))
        (fun e =>
           emit (ev_st_error ("Error converting text to speech: " ++ exn_str e)) ;;
           ret None)
  end.

(** [listen_and_transcribe] (lines 65-94).  Creating the recogniser and the
    microphone, entering the with block and the noise adjustment sit outside
    the try statement: what they raise leaves the function. *)
Definition listen_and_transcribe (w : speech_world) : py unit :=
  emit ev_Microphone ;;
  match w_Microphone w with
  | Some e => raise e
  | None =>
      set_status "Listening... Please speak." ;;
      try_except
        (emit (ev_listen 5 5) ;;
         audio <- call (w_listen w) ;;
         set_status "Processing speech..." ;;
         emit (ev_recognize_google audio) ;;
         transcribed_text <- call (w_recognize_google w audio) ;;
         emit (ev_print transcribed_text) ;;
         call (w_print w transcribed_text) ;;
         s <- get_session ;;
         set_text (text s ++ " " ++ transcribed_text) ;;
         set_status "Transcription successful!")
        (fun e =>
           match exn_cls e with
           | UnknownValueError =>
               emit (ev_st_warning "Could not understand the audio.") ;;
               set_status "Could not understand the audio."
           | WaitTimeoutError =>
               set_status "Listening timed out, waiting for speech..."
           | RequestError =>
               emit (ev_st_error
                       ("Could not request results from Google Web Speech API; "
                        ++ exn_str e)) ;;
               set_status ("API request error: " ++ exn_str e)
           | OtherException =>
               emit (ev_st_error
                       ("Error occurred during transcription: " ++ exn_str e)) ;;
               set_status ("Error occurred: " ++ exn_str e)
           end)
  end.

(** ** The script body, [main] (lines 96-178) *)

Inductive button : Type :=
| StartListening     (* "Start Listening" *)
| StopListening      (* "Stop Listening"  *)
| ConvertToAccent.   (* "Convert to Indian Accent" *)

Definition button_eqb (a b : button) : bool :=
  match a, b with
  | StartListening, StartListening
  | StopListening, StopListening
  | ConvertToAccent, ConvertToAccent => true
  | _, _ => false
  end.

(** [st.button(label)]: True in the rerun that a click on that button
    triggered, False otherwise. *)
Definition st_button (clicked : option button) (b : button) : bool :=
  match clicked with
  | Some c => button_eqb c b
  | None => false
  end.

(** Lines 172-178: the conversion button exists only behind the guard
    [not st.session_state['run'] and st.session_state['text']]; [pressed] is
    what [st.button] returns when it is reached. *)
Definition main_convert (pressed : bool) (w : polly_world) : py unit :=
  s <- get_session ;;
  if negb (run s) && truthy (text s) then
    emit (ev_st_subheader "Convert to Speech with Indian Accent") ;;
    if pressed then
      accent_audio <- text_to_speech w (text s) "Aditi" ;;
      match accent_audio with
      | Some name =>
          if truthy name then emit (ev_st_audio name "audio/mp3" true)
          else ret tt
      | None => ret tt
      end
    else ret tt
  else ret tt.

Record world : Type := mk_world {
  speech : speech_world;
  polly : polly_world
}.

(** One run of the script for one user action.  Calls that only lay the page
    out (page configuration, style sheet, header, columns) write nothing the
    session depends on and are left out of the log. *)
Definition main (clicked : option button) (w : world) : py unit :=
  s0 <- get_session ;;
  emit (ev_st_markdown ("<div class='status-box'>" ++ status s0 ++ "</div>")) ;;
  (if st_button clicked StartListening
   then start_transcription ;; listen_and_transcribe (speech w)
   else ret tt) ;;
  (if st_button clicked StopListening then stop_transcription else ret tt) ;;
  emit (ev_st_subheader "Live Transcription:") ;;
  s1 <- get_session ;;
  emit (ev_st_markdown ("<div class='transcription-box'>" ++ text s1 ++ "</div>")) ;;
  main_convert (st_button clicked ConvertToAccent) (polly w).

(** ** Transitions of the session state machine *)

Inductive transition : Type :=
| start
| stop
| captureUtterance (w : speech_world)
| convert (w : polly_world).

Definition transition_body (t : transition) : py unit :=
  match t with
  | start => start_transcription
  | stop => stop_transcription
  | captureUtterance w => listen_and_transcribe w
  | convert w => main_convert true w
  end.

(** The session object outlives an exception that ends a run of the script:
    the next transition starts from the machine the previous one left. *)
Definition step (t : transition) (m : machine) : machine :=
  snd (transition_body t m).

Definition exec (ts : list transition) (m : machine) : machine :=
  fold_left (fun m t => step t m) ts m.

(** A sequence of user actions, each with the world it meets. *)
Definition rerun (m : machine) (a : option button * world) : machine :=
  snd (main (fst a) (snd a) m).

Definition reruns (acts : list (option button * world)) (m : machine) : machine :=
  fold_left rerun acts m.

(** ** Vocabulary of the properties *)

(** [Some true] for [start], [Some false] for [stop]. *)
Definition start_or_stop (t : transition) : option bool :=
  match t with
  | start => Some true
  | stop => Some false
  | captureUtterance _ | convert _ => None
  end.

(** The most recent [start]/[stop] of a sequence (the list is in call order). *)
Fixpoint most_recent_start_stop (ts : list transition) : option bool :=
  match ts with
  | [] => None
  | t :: ts' =>
      match most_recent_start_stop ts' with
      | Some b => Some b
      | None => start_or_stop t
      end
  end.

(** What recognition ends with: the recognised text, or the exception raised
    by [listen] or by [recognize_google]. *)
Definition recognition_outcome (w : speech_world) : result string :=
  match w_listen w with
  | Return audio => w_recognize_google w audio
  | Raise e => Raise e
  end.

(** What the try block of [listen_and_transcribe] ends with before line 82:
    the text recognised and printed, or the exception raised by [listen], by
    [recognize_google] or by [print]. *)
Definition try_outcome (w : speech_world) : result string :=
  match recognition_outcome w with
  | Return t =>
      match w_print w t with
      | Return _ => Return t
      | Raise e => Raise e
      end
  | Raise e => Raise e
  end.

(** The capture succeeds: the microphone opens and the try block reaches the
    append of line 82 with the text [t]. *)
Definition capture_succeeds_with (w : speech_world) (t : string) : Prop :=
  w_Microphone w = None /\ try_outcome w = Return t.

(** The capture fails: the microphone opens and the try block raises [e]. *)
Definition capture_fails_with (w : speech_world) (e : exn) : Prop :=
  w_Microphone w = None /\ try_outcome w = Raise e.

(** The synthesis request raises: the client initialises, and
    [synthesize_speech] raises on the given arguments. *)
Definition synthesis_request_raises (w : polly_world) (txt voice : string) : Prop :=
  exists c e, w_boto3_client w = Return c /\
              w_synthesize_speech w txt "mp3" voice = Raise e.

Definition client_fails_to_initialize (w : polly_world) : Prop :=
  exists e, w_boto3_client w = Raise e.

(** Calls of [polly.synthesize_speech] in a log: (Text, VoiceId) of each. *)
Fixpoint synthesize_calls (l : list event) : list (string * string) :=
  match l with
  | [] => []
  | ev_synthesize_speech txt _ voice :: l' => (txt, voice) :: synthesize_calls l'
  | _ :: l' => synthesize_calls l'
  end.

(** Audio artifacts in a log: temporary files created and clips played. *)
Fixpoint audio_artifacts (l : list event) : list event :=
  match l with
  | [] => []
  | ev_NamedTemporaryFile s :: l' => ev_NamedTemporaryFile s :: audio_artifacts l'
  | ev_write n d :: l' => ev_write n d :: audio_artifacts l'
  | ev_st_audio p f a :: l' => ev_st_audio p f a :: audio_artifacts l'
  | _ :: l' => audio_artifacts l'
  end.

(** Calls made to boto3 and Polly in a log: creating the client and
    requesting a synthesis. *)
Fixpoint client_calls (l : list event) : list event :=
  match l with
  | [] => []
  | ev_boto3_client s :: l' => ev_boto3_client s :: client_calls l'
  | ev_synthesize_speech t f v :: l' => ev_synthesize_speech t f v :: client_calls l'
  | _ :: l' => client_calls l'
  end.

(** Sample exceptions, one of each class. *)
Definition no_speech : exn := mk_exn UnknownValueError "".
Definition timed_out : exn :=
  mk_exn WaitTimeoutError "listening timed out while waiting for phrase to start".
Definition request_failed : exn :=
  mk_exn RequestError "recognition connection failed".
Definition unknown_error : exn := mk_exn OtherException "boom".

(** A world in which recognition returns [t] and printing it works. *)
Definition hears (t : string) : speech_world :=
  {| w_Microphone := None;
     w_listen := Return [];
     w_recognize_google := fun _ => Return t;
     w_print := fun _ => Return tt |}.

(** A world in which recognition ends with exception [e] raised by
    [recognize_google]. *)
Definition mishears (e : exn) : speech_world :=
  {| w_Microphone := None;
     w_listen := Return [];
     w_recognize_google := fun _ => Raise e;
     w_print := fun _ => Return tt |}.

(** A Polly world that answers every request with the clip [data], stored
    under [name]. *)
Definition polly_ok (name : string) (data : audio_data) : polly_world :=
  {| w_boto3_client := Return tt;
     w_synthesize_speech := fun _ _ _ => Return {| AudioStream_read := Return data |};
     w_NamedTemporaryFile := Return name;
     w_write := fun _ => Return tt |}.

(** A Polly world whose client cannot be created. *)
Definition polly_down (e : exn) : polly_world :=
  {| w_boto3_client := Raise e;
     w_synthesize_speech := fun _ _ _ => Raise e;
     w_NamedTemporaryFile := Raise e;
     w_write := fun _ => Raise e |}.

(** A Polly world whose client is created and whose every request raises. *)
Definition polly_refuses : polly_world :=
  {| w_boto3_client := Return tt;
     w_synthesize_speech := fun _ _ _ => Raise unknown_error;
     w_NamedTemporaryFile := Return "/tmp/tmpab12.mp3";
     w_write := fun _ => Return tt |}.

(** ** Session initialisation (lines 30-36)

    [st.session_state] before the three guarded assignments is a dictionary
    that may lack any of the keys: an association list in insertion order. *)

Inductive value : Type :=
| VStr (s : string)
| VBool (b : bool).

Definition session_dict : Type := list (string * value).

(** [d[k]], [None] for a missing key. *)
Fixpoint dict_get (k : string) (d : session_dict) : option value :=
  match d with
  | [] => None
  | (k', v) :: d' => if String.eqb k k' then Some v else dict_get k d'
  end.

(** [k in d]. *)
Definition dict_contains (k : string) (d : session_dict) : bool :=
  match dict_get k d with
  | Some _ => true
  | None => false
  end.

(** [d[k] = v]: overwrites in place, appends a new key. *)
Fixpoint dict_set (k : string) (v : value) (d : session_dict) : session_dict :=
  match d with
  | [] => [(k, v)]
  | (k', v') :: d' =>
      if String.eqb k k' then (k, v) :: d' else (k', v') :: dict_set k v d'
  end.

(** Lines 31-36, run at the top of every run of the script. *)
Definition initialize_session_state (d : session_dict) : session_dict :=
  let d1 := if dict_contains "text" d then d else dict_set "text" (VStr "") d in
  let d2 := if dict_contains "run" d1 then d1 else dict_set "run" (VBool false) d1 in
  if dict_contains "status" d2 then d2
  else dict_set "status" (VStr "Ready to start recording.") d2.

(** The session the functions of the script work on, read off the dictionary. *)
Definition session_of_dict (d : session_dict) : option session_state :=
  match dict_get "text" d, dict_get "run" d, dict_get "status" d with
  | Some (VStr t), Some (VBool r), Some (VStr s) =>
      Some {| text := t; run := r; status := s |}
  | _, _, _ => None
  end.

(** ** Vocabulary of the properties, continued *)

(** [Some true] for a Start click, [Some false] for a Stop click. *)
Definition start_or_stop_click (a : option button * world) : option bool :=
  match fst a with
  | Some StartListening => Some true
  | Some StopListening => Some false
  | Some ConvertToAccent | None => None
  end.

(** The most recent Start/Stop click of a sequence of runs. *)
Fixpoint most_recent_click (acts : list (option button * world)) : option bool :=
  match acts with
  | [] => None
  | a :: acts' =>
      match most_recent_click acts' with
      | Some b => Some b
      | None => start_or_stop_click a
      end
  end.

(** The world met by the most recent Start click of a sequence of runs. *)
Fixpoint most_recent_start (acts : list (option button * world)) : option world :=
  match acts with
  | [] => None
  | a :: acts' =>
      match most_recent_start acts' with
      | Some w => Some w
      | None =>
          match fst a with
          | Some StartListening => Some (snd a)
          | _ => None
          end
      end
  end.

(** The transcript is empty or begins with a space. *)
Definition empty_or_leading_space (s : string) : bool :=
  match s with
  | EmptyString => true
  | String c _ => Ascii.eqb c " "
  end.

(** A synthesis request as the script makes them: a non-empty text, mp3
    output, the voice Aditi.  Every other event passes. *)
Definition well_formed_request (ev : event) : bool :=
  match ev with
  | ev_synthesize_speech txt fmt voice =>
      truthy txt && String.eqb fmt "mp3" && String.eqb voice "Aditi"
  | _ => true
  end.

(** Calls made to the speech_recognition library in a log. *)
Fixpoint speech_calls (l : list event) : list event :=
  match l with
  | [] => []
  | ev_Microphone :: l' => ev_Microphone :: speech_calls l'
  | ev_listen t p :: l' => ev_listen t p :: speech_calls l'
  | ev_recognize_google a :: l' => ev_recognize_google a :: speech_calls l'
  | _ :: l' => speech_calls l'
  end.

(** Messages shown with [st.error] and [st.warning] in a log. *)
Fixpoint ui_messages (l : list event) : list event :=
  match l with
  | [] => []
  | ev_st_error msg :: l' => ev_st_error msg :: ui_messages l'
  | ev_st_warning msg :: l' => ev_st_warning msg :: ui_messages l'
  | _ :: l' => ui_messages l'
  end.

(** [s] starts with [p]. *)
Fixpoint starts_with (p s : string) : bool :=
  match p with
  | EmptyString => true
  | String a p' =>
      match s with
      | EmptyString => false
      | String b s' => Ascii.eqb a b && starts_with p' s'
      end
  end.

(** Renderings of the status box in a log. *)
Fixpoint status_boxes (l : list event) : list event :=
  match l with
  | [] => []
  | ev_st_markdown body :: l' =>
      if starts_with "<div class='status-box'>" body
      then ev_st_markdown body :: status_boxes l'
      else status_boxes l'
  | _ :: l' => status_boxes l'
  end.

(** The transcript a Start click leaves: one space and the text recognised
    and printed, or nothing when the microphone could not be opened or the
    try block raised (in listen, in recognize_google or in print). *)
Definition transcript_after_start (w : speech_world) : string :=
  match w_Microphone w with
  | Some _ => ""
  | None =>
      match try_outcome w with
      | Return t => " " ++ t
      | Raise _ => ""
      end
  end.

(** Renderings of the transcription box in a log. *)
Fixpoint transcription_boxes (l : list event) : list event :=
  match l with
  | [] => []
  | ev_st_markdown body :: l' =>
      if starts_with "<div class='transcription-box'>" body
      then ev_st_markdown body :: transcription_boxes l'
      else transcription_boxes l'
  | _ :: l' => transcription_boxes l'
  end.

(** Every step of [text_to_speech] succeeds: the clip [data] streamed by
    Polly ends in the temporary file [name]. *)
Definition synthesis_succeeds
  (w : polly_world) (txt voice name : string) (data : audio_data) : Prop :=
  exists c response u,
    w_boto3_client w = Return c /\
    w_synthesize_speech w txt "mp3" voice = Return response /\
    w_NamedTemporaryFile w = Return name /\
    AudioStream_read response = Return data /\
    w_write w data = Return u.

(** A Polly world whose stream breaks after the temporary file was created. *)
Definition polly_broken_stream (name : string) : polly_world :=
  {| w_boto3_client := Return tt;
     w_synthesize_speech :=
       fun _ _ _ => Return {| AudioStream_read := Raise unknown_error |};
     w_NamedTemporaryFile := Return name;
     w_write := fun _ => Return tt |}.

(** What print raises on a standard output that encodes ASCII only. *)
Definition cannot_encode : exn :=
  mk_exn OtherException
    "'ascii' codec can't encode character '\xe9' in position 3: ordinal not in range(128)".

(** A world in which recognition returns [t] and printing it raises [e]. *)
Definition hears_unprintable (t : string) (e : exn) : speech_world :=
  {| w_Microphone := None;
     w_listen := Return [];
     w_recognize_google := fun _ => Return t;
     w_print := fun _ => Raise e |}.

(** A world without a usable microphone. *)
Definition no_microphone (e : exn) : speech_world :=
  {| w_Microphone := Some e;
     w_listen := Raise e;
     w_recognize_google := fun _ => Raise e;
     w_print := fun _ => Return tt |}.

(** * Properties *)

Ltac py_unfold :=
  unfold listen_and_transcribe, text_to_speech, initialize_polly_client,
    start_transcription, stop_transcription, main_convert,
    try_except, bind, ret, raise, call, emit, get_session,
    set_text, set_run, set_status in *.

Ltac script_unfold :=
  unfold rerun, step, transition_body, main, main_convert,
    listen_and_transcribe, text_to_speech, initialize_polly_client,
    start_transcription, stop_transcription,
    try_except, bind, ret, raise, call, emit, get_session,
    set_text, set_run, set_status in *.

(** Read a hypothesis on the outcome of the try block as a fact about the
    three calls it makes. *)
Ltac try_outcome_cases Hrec w :=
  unfold try_outcome, recognition_outcome in Hrec;
  let a := fresh "a" in
  let t0 := fresh "t0" in
  let u := fresh "u" in
  destruct (w_listen w) as [a|] eqn:?; cbn in Hrec |- *;
  [ destruct (w_recognize_google w a) as [t0|] eqn:?; cbn in Hrec |- *;
    [ destruct (w_print w t0) as [u|] eqn:?; cbn in Hrec |- * | ] | ];
  first [discriminate Hrec | injection Hrec as ->].

(** Case analysis on everything the world answers along the way. *)
Ltac world_cases :=
  repeat (cbn in *;
          match goal with
          | |- context [w_Microphone ?w] => destruct (w_Microphone w) eqn:?
          | |- context [w_listen ?w] => destruct (w_listen w) eqn:?
          | |- context [w_recognize_google ?w ?a] =>
              destruct (w_recognize_google w a) eqn:?
          | |- context [w_print ?w ?t] => destruct (w_print w t) eqn:?
          | |- context [exn_cls ?e] => destruct (exn_cls e) eqn:?
          | |- context [w_boto3_client ?w] => destruct (w_boto3_client w) eqn:?
          | |- context [w_synthesize_speech ?w ?t ?f ?v] =>
              destruct (w_synthesize_speech w t f v) eqn:?
          | |- context [w_NamedTemporaryFile ?w] =>
              destruct (w_NamedTemporaryFile w) eqn:?
          | |- context [AudioStream_read ?r] => destruct (AudioStream_read r) eqn:?
          | |- context [w_write ?w ?d] => destruct (w_write w d) eqn:?
          | |- context [truthy ?n] => destruct (truthy n) eqn:?
          | |- context [run (session ?m)] => destruct (run (session m)) eqn:?
          end);
  cbn in *.

(** ** Strings and logs *)

Lemma string_length_append (s1 s2 : string) :
  String.length (s1 ++ s2) = String.length s1 + String.length s2.
Proof.
  induction s1 as [|c s1 IH]; cbn; [reflexivity | now rewrite IH].
Qed.

Lemma append_nonempty_neq (s t : string) :
  t <> "" -> s ++ t <> s.
Proof.
  intros Ht Heq. apply (f_equal String.length) in Heq.
  rewrite string_length_append in Heq.
  destruct t as [|c t]; [now apply Ht | cbn in Heq; lia].
Qed.

Lemma synthesize_calls_app (l1 l2 : list event) :
  synthesize_calls (l1 ++ l2) = (synthesize_calls l1 ++ synthesize_calls l2)%list.
Proof.
  induction l1 as [|e l1 IH]; cbn; [reflexivity|].
  destruct e; cbn; rewrite IH; reflexivity.
Qed.

Lemma audio_artifacts_app (l1 l2 : list event) :
  audio_artifacts (l1 ++ l2) = (audio_artifacts l1 ++ audio_artifacts l2)%list.
Proof.
  induction l1 as [|e l1 IH]; cbn; [reflexivity|].
  destruct e; cbn; rewrite IH; reflexivity.
Qed.

Lemma client_calls_app (l1 l2 : list event) :
  client_calls (l1 ++ l2) = (client_calls l1 ++ client_calls l2)%list.
Proof.
  induction l1 as [|e l1 IH]; cbn; [reflexivity|].
  destruct e; cbn; rewrite IH; reflexivity.
Qed.

(** ** [listen_and_transcribe], outcome by outcome *)

Lemma listen_and_transcribe_setup_raises (w : speech_world) (m : machine) (e : exn) :
  w_Microphone w = Some e ->
  listen_and_transcribe w m
  = (Raise e, {| session := session m; log := log m ++ [ev_Microphone] |}).
Proof.
  intros H. py_unfold. cbn. rewrite H. reflexivity.
Qed.

Lemma listen_and_transcribe_success (w : speech_world) (m : machine) (t : string) :
  capture_succeeds_with w t ->
  fst (listen_and_transcribe w m) = Return tt /\
  session (snd (listen_and_transcribe w m))
  = {| text := text (session m) ++ " " ++ t;
       run := run (session m);
       status := "Transcription successful!" |}.
Proof.
  intros [Hmic Hrec]. py_unfold. cbn. rewrite Hmic. cbn.
  try_outcome_cases Hrec w; split; reflexivity.
Qed.

Lemma listen_and_transcribe_failure (w : speech_world) (m : machine) (e : exn) :
  capture_fails_with w e ->
  fst (listen_and_transcribe w m) = Return tt /\
  session (snd (listen_and_transcribe w m))
  = {| text := text (session m);
       run := run (session m);
       status := match exn_cls e with
                 | UnknownValueError => "Could not understand the audio."
                 | WaitTimeoutError => "Listening timed out, waiting for speech..."
                 | RequestError => "API request error: " ++ exn_str e
                 | OtherException => "Error occurred: " ++ exn_str e
                 end |}.
Proof.
  intros [Hmic Hrec]. py_unfold. cbn. rewrite Hmic. cbn.
  try_outcome_cases Hrec w; destruct (exn_cls e); cbn; split; reflexivity.
Qed.

(** Every call ends in exactly one of three ways. *)
Lemma capture_cases (w : speech_world) :
  (exists e, w_Microphone w = Some e) \/
  (exists t, capture_succeeds_with w t) \/
  (exists e, capture_fails_with w e).
Proof.
  unfold capture_succeeds_with, capture_fails_with.
  destruct (w_Microphone w) as [e|] eqn:Hmic; [left; now exists e|].
  right. destruct (try_outcome w) as [t|e] eqn:Hrec.
  - left. now exists t.
  - right. now exists e.
Qed.

Lemma listen_and_transcribe_run (w : speech_world) (m : machine) :
  run (session (snd (listen_and_transcribe w m))) = run (session m).
Proof.
  destruct (capture_cases w) as [[e H]|[[t H]|[e H]]].
  - rewrite (listen_and_transcribe_setup_raises w m e H). reflexivity.
  - destruct (listen_and_transcribe_success w m t H) as [_ ->]. reflexivity.
  - destruct (listen_and_transcribe_failure w m e H) as [_ ->]. reflexivity.
Qed.

(** ** [text_to_speech] and the conversion section *)

Lemma text_to_speech_session (w : polly_world) (txt voice : string) (m : machine) :
  session (snd (text_to_speech w txt voice m)) = session m.
Proof.
  py_unfold. cbn.
  destruct (w_boto3_client w) as [c|e]; cbn; [|reflexivity].
  destruct (w_synthesize_speech w txt "mp3" voice) as [r|e]; cbn; [|reflexivity].
  destruct (w_NamedTemporaryFile w) as [n|e]; cbn; [|reflexivity].
  destruct (AudioStream_read r) as [d|e]; cbn; [|reflexivity].
  destruct (w_write w d) as [u|e]; cbn; reflexivity.
Qed.

(** [text_to_speech] never raises: it returns a name or None. *)
Lemma text_to_speech_returns (w : polly_world) (txt voice : string) (m : machine) :
  exists r, fst (text_to_speech w txt voice m) = Return r.
Proof.
  py_unfold. cbn.
  destruct (w_boto3_client w) as [c|e]; cbn; [|now eexists].
  destruct (w_synthesize_speech w txt "mp3" voice) as [r|e]; cbn; [|now eexists].
  destruct (w_NamedTemporaryFile w) as [n|e]; cbn; [|now eexists].
  destruct (AudioStream_read r) as [d|e]; cbn; [|now eexists].
  destruct (w_write w d) as [u|e]; cbn; now eexists.
Qed.

Lemma text_to_speech_init_fails (w : polly_world) (txt voice : string) (m : machine) (e : exn) :
  w_boto3_client w = Raise e ->
  text_to_speech w txt voice m
  = (Return None,
     {| session := session m;
        log := (log m ++ [ev_boto3_client "polly"])
               ++ [ev_st_error ("Error initializing AWS Polly client: " ++ exn_str e)] |}).
Proof.
  intros H. py_unfold. cbn. rewrite H. reflexivity.
Qed.

Lemma text_to_speech_request_raises
  (w : polly_world) (txt voice : string) (m : machine) (c : unit) (e : exn) :
  w_boto3_client w = Return c ->
  w_synthesize_speech w txt "mp3" voice = Raise e ->
  text_to_speech w txt voice m
  = (Return None,
     {| session := session m;
        log := ((log m ++ [ev_boto3_client "polly"])
                ++ [ev_synthesize_speech txt "mp3" voice])
               ++ [ev_st_error ("Error converting text to speech: " ++ exn_str e)] |}).
Proof.
  intros Hc Hs. py_unfold. cbn. rewrite Hc. cbn. rewrite Hs. reflexivity.
Qed.

(** With a client, [synthesize_speech] is called once, whatever follows. *)
Lemma text_to_speech_calls (w : polly_world) (txt voice : string) (m : machine) (c : unit) :
  w_boto3_client w = Return c ->
  synthesize_calls (log (snd (text_to_speech w txt voice m)))
  = (synthesize_calls (log m) ++ [(txt, voice)])%list.
Proof.
  intros Hc. py_unfold. cbn. rewrite Hc. cbn.
  destruct (w_synthesize_speech w txt "mp3" voice) as [r|e]; cbn.
  2:{ repeat rewrite synthesize_calls_app. cbn. now rewrite !app_nil_r. }
  destruct (w_NamedTemporaryFile w) as [n|e]; cbn.
  2:{ repeat rewrite synthesize_calls_app. cbn. now rewrite !app_nil_r. }
  destruct (AudioStream_read r) as [d|e]; cbn.
  2:{ repeat rewrite synthesize_calls_app. cbn. now rewrite !app_nil_r. }
  destruct (w_write w d) as [u|e]; cbn;
    repeat rewrite synthesize_calls_app; cbn; now rewrite !app_nil_r.
Qed.

Lemma main_convert_disabled (pressed : bool) (w : polly_world) (m : machine) :
  run (session m) = true \/ text (session m) = "" ->
  main_convert pressed w m = (Return tt, m).
Proof.
  intros H. unfold main_convert, bind, get_session, ret.
  destruct H as [H|H]; rewrite H; cbn; [reflexivity|].
  now rewrite andb_false_r.
Qed.

Lemma main_convert_session (pressed : bool) (w : polly_world) (m : machine) :
  session (snd (main_convert pressed w m)) = session m.
Proof.
  unfold main_convert, bind, get_session.
  destruct (negb (run (session m)) && truthy (text (session m))); [|reflexivity].
  unfold emit at 1. destruct pressed; [|reflexivity].
  match goal with
  | |- context [text_to_speech ?w ?t ?v ?m'] =>
      pose proof (text_to_speech_session w t v m') as Hs;
      destruct (text_to_speech_returns w t v m') as [r Hr];
      destruct (text_to_speech w t v m') as [x m'']
  end.
  cbn in Hs, Hr. subst x.
  destruct r as [n|]; [destruct (truthy n)|]; cbn; exact Hs.
Qed.

Lemma step_run (t : transition) (m : machine) :
  run (session (step t m))
  = match start_or_stop t with
    | Some b => b
    | None => run (session m)
    end.
Proof.
  destruct t as [| |w|w]; unfold step; cbn [transition_body start_or_stop].
  - reflexivity.
  - reflexivity.
  - apply listen_and_transcribe_run.
  - now rewrite main_convert_session.
Qed.

Lemma exec_run (ts : list transition) (m : machine) :
  run (session (exec ts m))
  = match most_recent_start_stop ts with
    | Some b => b
    | None => run (session m)
    end.
Proof.
  revert m. induction ts as [|t ts IH]; intros m; [reflexivity|].
  cbn [exec fold_left most_recent_start_stop].
  change (fold_left (fun m t => step t m) ts (step t m)) with (exec ts (step t m)).
  rewrite IH. destruct (most_recent_start_stop ts); [reflexivity|].
  apply step_run.
Qed.

Lemma listen_and_transcribe_synthesize_calls (w : speech_world) (m : machine) :
  synthesize_calls (log (snd (listen_and_transcribe w m))) = synthesize_calls (log m).
Proof.
  py_unfold. cbn.
  destruct (w_Microphone w) as [e|]; cbn.
  { rewrite synthesize_calls_app. cbn. apply app_nil_r. }
  destruct (w_listen w) as [a|e]; cbn.
  - destruct (w_recognize_google w a) as [t|e]; cbn;
      [destruct (w_print w t) as [u|e]; cbn; [|destruct (exn_cls e); cbn]
      |destruct (exn_cls e); cbn];
      repeat rewrite synthesize_calls_app; cbn; now rewrite ?app_nil_r.
  - destruct (exn_cls e); cbn;
      repeat rewrite synthesize_calls_app; cbn; now rewrite ?app_nil_r.
Qed.

Lemma main_convert_enabled_calls (w : polly_world) (m : machine) (c : unit) :
  run (session m) = false ->
  truthy (text (session m)) = true ->
  w_boto3_client w = Return c ->
  synthesize_calls (log (snd (main_convert true w m)))
  = (synthesize_calls (log m) ++ [(text (session m), "Aditi")])%list.
Proof.
  intros Hrun Htext Hc. unfold main_convert, bind, get_session.
  rewrite Hrun, Htext. cbn [negb andb]. unfold emit at 1.
  match goal with
  | |- context [text_to_speech ?w ?t ?v ?m'] =>
      pose proof (text_to_speech_calls w t v m' c Hc) as Hs;
      destruct (text_to_speech_returns w t v m') as [r Hr];
      destruct (text_to_speech w t v m') as [x m'']
  end.
  cbn in Hs, Hr. subst x.
  rewrite synthesize_calls_app in Hs. cbn in Hs. rewrite app_nil_r in Hs.
  destruct r as [n|]; [destruct (truthy n)|]; cbn;
    rewrite ?synthesize_calls_app; cbn; rewrite ?app_nil_r; exact Hs.
Qed.

(** A run of the script in which neither Start nor Stop was clicked renders
    the page and reaches the conversion section with the session untouched. *)
Lemma main_without_start_stop (clicked : option button) (w : world) (m : machine) :
  st_button clicked StartListening = false ->
  st_button clicked StopListening = false ->
  main clicked w m
  = main_convert (st_button clicked ConvertToAccent) (polly w)
      {| session := session m;
         log := ((log m
                  ++ [ev_st_markdown ("<div class='status-box'>"
                                      ++ status (session m) ++ "</div>")])
                 ++ [ev_st_subheader "Live Transcription:"])
                ++ [ev_st_markdown ("<div class='transcription-box'>"
                                    ++ text (session m) ++ "</div>")] |}.
Proof.
  intros H1 H2. unfold main. rewrite H1, H2.
  unfold bind, get_session, emit, ret. cbn. reflexivity.
Qed.


Lemma main_start (w : world) (m : machine) :
  main (Some StartListening) w m
  = match listen_and_transcribe (speech w)
            {| session := {| text := ""; run := true;
                             status := "Recording started. Please speak clearly." |};
               log := log m ++ [ev_st_markdown ("<div class='status-box'>"
                                                ++ status (session m) ++ "</div>")] |}
    with
    | (Return _, m2) =>
        main_convert false (polly w)
          {| session := session m2;
             log := (log m2 ++ [ev_st_subheader "Live Transcription:"])
                    ++ [ev_st_markdown ("<div class='transcription-box'>"
                                        ++ text (session m2) ++ "</div>")] |}
    | (Raise e, m2) => (Raise e, m2)
    end.
Proof.
  unfold main, start_transcription, bind, get_session, emit, ret,
    set_run, set_text, set_status.
  cbn [st_button button_eqb session log text run status].
  destruct (listen_and_transcribe _ _) as [[u|e] m2]; reflexivity.
Qed.

(** ** The script on sample inputs *)

Example start_then_hello :
  session (exec [start; captureUtterance (hears "hello")] initial_machine)
  = {| text := " hello"; run := true; status := "Transcription successful!" |}.
Proof. reflexivity. Qed.

Example timeout_status :
  session (exec [start; captureUtterance (mishears timed_out)] initial_machine)
  = {| text := ""; run := true;
       status := "Listening timed out, waiting for speech..." |}.
Proof. reflexivity. Qed.

Example request_error_status :
  status (session (step (captureUtterance (mishears request_failed)) initial_machine))
  = "API request error: recognition connection failed".
Proof. reflexivity. Qed.

Example convert_plays_the_clip :
  log (exec [start; captureUtterance (hears "hi"); stop;
             convert (polly_ok "/tmp/tmpab12.mp3" [])] initial_machine)
  = [ev_Microphone; ev_listen 5 5; ev_recognize_google []; ev_print "hi";
     ev_st_subheader "Convert to Speech with Indian Accent";
     ev_boto3_client "polly";
     ev_synthesize_speech " hi" "mp3" "Aditi";
     ev_NamedTemporaryFile ".mp3";
     ev_write "/tmp/tmpab12.mp3" [];
     ev_st_audio "/tmp/tmpab12.mp3" "audio/mp3" true].
Proof. reflexivity. Qed.

Example print_failure_is_handled :
  step (captureUtterance (hears_unprintable "café" cannot_encode))
    (step start initial_machine)
  = {| session := {| text := ""; run := true;
                     status := "Error occurred: " ++ exn_str cannot_encode |};
       log := [ev_Microphone; ev_listen 5 5; ev_recognize_google [];
               ev_print "café";
               ev_st_error ("Error occurred during transcription: "
                            ++ exn_str cannot_encode)] |}.
Proof. reflexivity. Qed.

(** A second Start click restarts the transcript: through the script, each
    capture follows [start_transcription]. *)
Example two_start_clicks :
  text (session (reruns [(Some StartListening,
                          {| speech := hears "hello"; polly := polly_refuses |});
                         (Some StartListening,
                          {| speech := hears "world"; polly := polly_refuses |})]
                   initial_machine))
  = " world".
Proof. reflexivity. Qed.

(** ** The recording flag *)

(** C1: over every sequence of start / stop / captureUtterance / convert
    calls, from any session, the recording flag ends as the most recent
    start-or-stop call left it (and as it was when there is none); from the
    initial session it is true iff that most recent call was start.  Neither
    captureUtterance, whatever its outcome, nor convert, nor a run of the
    script in which no button or the Convert button was clicked, changes the
    flag. *)
Theorem recording_iff_last_call_was_start :
  (forall ts m,
      run (session (exec ts m))
      = match most_recent_start_stop ts with
        | Some b => b
        | None => run (session m)
        end) /\
  (forall ts,
      run (session (exec ts initial_machine)) = true
      <-> most_recent_start_stop ts = Some true) /\
  (forall w m, run (session (step (captureUtterance w) m)) = run (session m)) /\
  (forall w m, run (session (step (convert w) m)) = run (session m)) /\
  (forall w m, run (session (rerun m (None, w))) = run (session m)) /\
  (forall w m, run (session (rerun m (Some ConvertToAccent, w))) = run (session m)).
Proof.
  split; [exact exec_run|].
  split.
  { intros ts. rewrite exec_run. cbn.
    destruct (most_recent_start_stop ts) as [[|]|]; split; intros H;
      try reflexivity; try discriminate. }
  split; [intros w m; apply (step_run (captureUtterance w))|].
  split; [intros w m; apply (step_run (convert w))|].
  split; intros w m; unfold rerun; cbn [fst snd];
    rewrite main_without_start_stop by reflexivity;
    now rewrite main_convert_session.
Qed.

(** C6: from every session (any transcript, any recording flag), start()
    leaves the transcript empty and the recording flag true. *)
Theorem start_resets_transcript_and_records (m : machine) :
  text (session (step start m)) = "" /\ run (session (step start m)) = true.
Proof.
  split; reflexivity.
Qed.

(** ** Utterance capture *)

(** C2, as the code has it: a capture that reaches the append of line 82
    with text t (listen and recognize_google returned, and the print of t on
    line 81 did not raise) sets the transcript to the old transcript, one
    space, then t, whatever the old transcript is; two such captures in a row
    returning hello and world from an empty transcript leave the transcript
    " hello world".  When recognition returns t and the print of t raises,
    the transcript is left as it was. *)
Theorem capture_appends_space_then_text :
  (forall m w t,
      capture_succeeds_with w t ->
      text (session (step (captureUtterance w) m)) = text (session m) ++ " " ++ t) /\
  (forall m w1 w2,
      text (session m) = "" ->
      capture_succeeds_with w1 "hello" ->
      capture_succeeds_with w2 "world" ->
      text (session (exec [captureUtterance w1; captureUtterance w2] m))
      = " hello world") /\
  (forall m w t e,
      w_Microphone w = None ->
      recognition_outcome w = Return t ->
      w_print w t = Raise e ->
      text (session (step (captureUtterance w) m)) = text (session m)).
Proof.
  assert (Hone : forall m w t,
             capture_succeeds_with w t ->
             text (session (step (captureUtterance w) m)) = text (session m) ++ " " ++ t).
  { intros m w t H. unfold step. cbn [transition_body].
    destruct (listen_and_transcribe_success w m t H) as [_ ->]. reflexivity. }
  split; [exact Hone|]. split.
  - intros m w1 w2 Hm H1 H2. cbn [exec fold_left].
    rewrite (Hone _ w2 "world" H2), (Hone _ w1 "hello" H1), Hm. reflexivity.
  - intros m w t e Hmic Hrec Hprint. unfold step. cbn [transition_body].
    assert (Hfail : capture_fails_with w e).
    { split; [exact Hmic|]. unfold try_outcome. now rewrite Hrec, Hprint. }
    destruct (listen_and_transcribe_failure w m e Hfail) as [_ ->]. reflexivity.
Qed.

Lemma capture_appends_space_then_text_witness :
  text (session (step (captureUtterance (hears "hello")) initial_machine)) = " hello" /\
  text (session (exec [captureUtterance (hears "hello"); captureUtterance (hears "world")]
                   initial_machine))
  = " hello world" /\
  text (session (step (captureUtterance (hears_unprintable "café" cannot_encode))
                   initial_machine))
  = text (session initial_machine).
Proof.
  split; [|split].
  - apply (proj1 capture_appends_space_then_text initial_machine (hears "hello") "hello").
    split; reflexivity.
  - apply (proj1 (proj2 capture_appends_space_then_text) initial_machine
             (hears "hello") (hears "world")).
    + reflexivity.
    + split; reflexivity.
    + split; reflexivity.
  - apply (proj2 (proj2 capture_appends_space_then_text) initial_machine
             (hears_unprintable "café" cannot_encode) "café" cannot_encode);
      reflexivity.
Defined.

(** C2, as stated, fails: recognition returns the text café, the print of
    line 81 raises on a standard output that cannot encode it, and the call
    ends in the handler of line 92: nothing is appended to the transcript,
    an error is shown and the status is "Error occurred: ...". *)
Lemma recognised_text_lost_when_print_raises :
  w_Microphone (hears_unprintable "café" cannot_encode) = None /\
  recognition_outcome (hears_unprintable "café" cannot_encode) = Return "café" /\
  fst (listen_and_transcribe (hears_unprintable "café" cannot_encode) initial_machine)
  = Return tt /\
  text (session (step (captureUtterance (hears_unprintable "café" cannot_encode))
                   initial_machine))
  = "" /\
  text (session (step (captureUtterance (hears_unprintable "café" cannot_encode))
                   initial_machine))
  <> text (session initial_machine) ++ " " ++ "café" /\
  status (session (step (captureUtterance (hears_unprintable "café" cannot_encode))
                     initial_machine))
  = "Error occurred: " ++ exn_str cannot_encode.
Proof.
  repeat split; try reflexivity. cbn. discriminate.
Qed.



(** C7, as the code has it: start() sets the status to exactly
    "Recording started. Please speak clearly." and stop() sets it to exactly
    "Recording stopped. Processing final text...". *)
Theorem start_stop_status_strings (m : machine) :
  status (session (step start m)) = "Recording started. Please speak clearly." /\
  status (session (step stop m)) = "Recording stopped. Processing final text...".
Proof.
  split; reflexivity.
Qed.

(** C7, as stated, fails: after start() the status is not the string
    "Recording started...", and after stop() it is not "Recording stopped...". *)
Lemma start_stop_status_not_abbreviated :
  status (session (step start initial_machine)) <> "Recording started..." /\
  status (session (step stop initial_machine)) <> "Recording stopped...".
Proof.
  split; cbn; intros H; discriminate H.
Qed.

(** C8, as the code has it: a capture that ends in "no speech understood"
    (UnknownValueError) leaves the transcript unchanged, shows the warning and
    sets the status to exactly "Could not understand the audio."; that status
    differs from the one held before the call whenever the one held before
    was not already this message. *)
Theorem no_speech_keeps_transcript_sets_warning (w : speech_world) (m : machine) (e : exn)
  (Hfail : capture_fails_with w e) (Hcls : exn_cls e = UnknownValueError) :
  text (session (step (captureUtterance w) m)) = text (session m) /\
  status (session (step (captureUtterance w) m)) = "Could not understand the audio." /\
  In (ev_st_warning "Could not understand the audio.")
     (log (step (captureUtterance w) m)) /\
  (status (session m) <> "Could not understand the audio." ->
   status (session (step (captureUtterance w) m)) <> status (session m)).
Proof.
  unfold step. cbn [transition_body].
  destruct (listen_and_transcribe_failure w m e Hfail) as [_ Hs].
  rewrite Hs, Hcls. cbn [text status].
  split; [reflexivity|]. split; [reflexivity|]. split.
  - destruct Hfail as [Hmic Hrec].
    py_unfold. cbn. rewrite Hmic. cbn.
    try_outcome_cases Hrec w; rewrite Hcls; cbn;
      apply in_or_app; right; left; reflexivity.
  - intros Hne Heq. apply Hne. symmetry. exact Heq.
Qed.

Lemma no_speech_keeps_transcript_sets_warning_witness :
  text (session (step (captureUtterance (mishears no_speech)) initial_machine))
  = text (session initial_machine) /\
  status (session (step (captureUtterance (mishears no_speech)) initial_machine))
  = "Could not understand the audio." /\
  In (ev_st_warning "Could not understand the audio.")
     (log (step (captureUtterance (mishears no_speech)) initial_machine)) /\
  (status (session initial_machine) <> "Could not understand the audio." ->
   status (session (step (captureUtterance (mishears no_speech)) initial_machine))
   <> status (session initial_machine)).
Proof.
  apply (no_speech_keeps_transcript_sets_warning
           (mishears no_speech) initial_machine no_speech).
  - split; reflexivity.
  - reflexivity.
Defined.

(** C8, as stated, fails: when a capture ends in "no speech understood" in a
    session whose status is already the warning message (here, the session
    left by start() and one such capture), the status after the call equals
    the status held before it. *)
Lemma no_speech_twice_same_status :
  capture_fails_with (mishears no_speech) no_speech /\
  exn_cls no_speech = UnknownValueError /\
  status (session (step (captureUtterance (mishears no_speech))
                     (exec [start; captureUtterance (mishears no_speech)]
                        initial_machine)))
  = status (session (exec [start; captureUtterance (mishears no_speech)]
                       initial_machine)).
Proof.
  split; [split; reflexivity|]. split; reflexivity.
Qed.

(** C9: whatever the world does, a call of captureUtterance changes the
    transcript iff the capture succeeded (recognition returned and the try
    block reached the append of line 82); in particular every failure of the
    recognition call, of whatever class (no speech, timeout, request failure,
    any other exception), leaves the transcript exactly as it was, and so
    do a print that raises and a failure to open the microphone. *)
Theorem only_success_changes_transcript (w : speech_world) (m : machine) :
  (text (session (step (captureUtterance w) m)) <> text (session m)
   <-> exists t, capture_succeeds_with w t) /\
  (forall e, capture_fails_with w e ->
             text (session (step (captureUtterance w) m)) = text (session m)) /\
  (forall e, w_Microphone w = Some e ->
             text (session (step (captureUtterance w) m)) = text (session m)).
Proof.
  unfold step. cbn [transition_body].
  assert (Hfail : forall e, capture_fails_with w e ->
             text (session (snd (listen_and_transcribe w m))) = text (session m)).
  { intros e H. destruct (listen_and_transcribe_failure w m e H) as [_ ->]. reflexivity. }
  assert (Hmic : forall e, w_Microphone w = Some e ->
             text (session (snd (listen_and_transcribe w m))) = text (session m)).
  { intros e H. rewrite (listen_and_transcribe_setup_raises w m e H). reflexivity. }
  split; [|split; assumption].
  split.
  - intros Hne. destruct (capture_cases w) as [[e H]|[[t H]|[e H]]].
    + exfalso. apply Hne. exact (Hmic e H).
    + exists t. exact H.
    + exfalso. apply Hne. exact (Hfail e H).
  - intros [t H]. destruct (listen_and_transcribe_success w m t H) as [_ ->].
    cbn [text]. apply append_nonempty_neq. cbn. discriminate.
Qed.

(** ** Conversion *)

(** C3: while the recording flag is true, or while the transcript is empty,
    the conversion section does nothing, pressed or not: it returns with the
    machine as it was, so convert() is a no-op and a run of the script on a
    Convert click leaves the session as it was and makes no call to boto3 or
    Polly.  Conversely, whenever the conversion section does anything, the
    recording flag is false and the transcript is not empty. *)
Theorem convert_enabled_only_when_stopped_with_text
  (pressed : bool) (w : world) (m : machine) :
  (run (session m) = true \/ text (session m) = "" ->
   main_convert pressed (polly w) m = (Return tt, m) /\
   step (convert (polly w)) m = m /\
   session (rerun m (Some ConvertToAccent, w)) = session m /\
   client_calls (log (rerun m (Some ConvertToAccent, w))) = client_calls (log m)) /\
  (main_convert pressed (polly w) m <> (Return tt, m) ->
   run (session m) = false /\ text (session m) <> "").
Proof.
  split.
  - intros H. split; [now apply main_convert_disabled|].
    split; [unfold step; cbn [transition_body]; now rewrite main_convert_disabled|].
    unfold rerun. cbn [fst snd].
    rewrite main_without_start_stop by reflexivity.
    rewrite main_convert_disabled by exact H. cbn [snd session log].
    split; [reflexivity|].
    rewrite !client_calls_app. cbn. now rewrite !app_nil_r.
  - intros Hne.
    destruct (run (session m)) eqn:Hrun.
    { exfalso. apply Hne. apply main_convert_disabled. now left. }
    split; [reflexivity|]. intros Htext.
    apply Hne. apply main_convert_disabled. now right.
Qed.

Lemma convert_enabled_only_when_stopped_with_text_witness :
  main_convert true (polly_ok "/tmp/a.mp3" [])
    (exec [start; captureUtterance (hears "hi")] initial_machine)
  = (Return tt, exec [start; captureUtterance (hears "hi")] initial_machine) /\
  client_calls (log (rerun initial_machine
                       (Some ConvertToAccent,
                        {| speech := hears "hi"; polly := polly_ok "/tmp/a.mp3" [] |})))
  = client_calls (log initial_machine).
Proof.
  split.
  - apply (proj1 (convert_enabled_only_when_stopped_with_text true
                    {| speech := hears "hi"; polly := polly_ok "/tmp/a.mp3" [] |}
                    (exec [start; captureUtterance (hears "hi")] initial_machine))).
    left. reflexivity.
  - apply (proj1 (convert_enabled_only_when_stopped_with_text true
                    {| speech := hears "hi"; polly := polly_ok "/tmp/a.mp3" [] |}
                    initial_machine)).
    right. reflexivity.
Defined.

(** C10: when the Polly client cannot be created, or the synthesis request
    raises, text_to_speech returns None, no temporary file is created or
    written and nothing is played, and the transcript and the recording flag
    are as before; the same holds of convert(), which then plays nothing. *)
Theorem synthesis_failure_returns_none :
  (forall w txt voice m,
      client_fails_to_initialize w \/ synthesis_request_raises w txt voice ->
      fst (text_to_speech w txt voice m) = Return None /\
      audio_artifacts (log (snd (text_to_speech w txt voice m)))
      = audio_artifacts (log m) /\
      text (session (snd (text_to_speech w txt voice m))) = text (session m) /\
      run (session (snd (text_to_speech w txt voice m))) = run (session m)) /\
  (forall w m,
      client_fails_to_initialize w \/
      synthesis_request_raises w (text (session m)) "Aditi" ->
      audio_artifacts (log (step (convert w) m)) = audio_artifacts (log m) /\
      text (session (step (convert w) m)) = text (session m) /\
      run (session (step (convert w) m)) = run (session m)).
Proof.
  assert (Htts : forall w txt voice m,
             client_fails_to_initialize w \/ synthesis_request_raises w txt voice ->
             fst (text_to_speech w txt voice m) = Return None /\
             audio_artifacts (log (snd (text_to_speech w txt voice m)))
             = audio_artifacts (log m)).
  { intros w txt voice m [[e He]|[c [e [Hc He]]]].
    - rewrite (text_to_speech_init_fails w txt voice m e He). cbn [fst snd log].
      split; [reflexivity|].
      rewrite !audio_artifacts_app. cbn. now rewrite !app_nil_r.
    - rewrite (text_to_speech_request_raises w txt voice m c e Hc He).
      cbn [fst snd log]. split; [reflexivity|].
      rewrite !audio_artifacts_app. cbn. now rewrite !app_nil_r. }
  split.
  - intros w txt voice m H. destruct (Htts w txt voice m H) as [H1 H2].
    rewrite text_to_speech_session. repeat split; assumption.
  - intros w m H. unfold step. cbn [transition_body].
    rewrite main_convert_session. split; [|split; reflexivity].
    unfold main_convert, bind, get_session.
    destruct (negb (run (session m)) && truthy (text (session m))); [|reflexivity].
    unfold emit at 1.
    match goal with
    | |- context [text_to_speech ?w ?t ?v ?m'] =>
        destruct (Htts w t v m' H) as [Hr Ha];
        destruct (text_to_speech w t v m') as [x m'']
    end.
    cbn in Hr, Ha. subst x. cbn. rewrite Ha.
    rewrite audio_artifacts_app. cbn. apply app_nil_r.
Qed.

Lemma synthesis_failure_returns_none_witness :
  (fst (text_to_speech (polly_down unknown_error) " hi" "Aditi" initial_machine)
   = Return None /\
   audio_artifacts
     (log (snd (text_to_speech (polly_down unknown_error) " hi" "Aditi" initial_machine)))
   = audio_artifacts (log initial_machine) /\
   text (session (snd (text_to_speech (polly_down unknown_error) " hi" "Aditi"
                         initial_machine)))
   = text (session initial_machine) /\
   run (session (snd (text_to_speech (polly_down unknown_error) " hi" "Aditi"
                        initial_machine)))
   = run (session initial_machine)) /\
  (audio_artifacts
     (log (step (convert polly_refuses)
             (exec [start; captureUtterance (hears "hi"); stop] initial_machine)))
   = audio_artifacts (log (exec [start; captureUtterance (hears "hi"); stop]
                             initial_machine)) /\
   text (session (step (convert polly_refuses)
                    (exec [start; captureUtterance (hears "hi"); stop] initial_machine)))
   = text (session (exec [start; captureUtterance (hears "hi"); stop] initial_machine)) /\
   run (session (step (convert polly_refuses)
                   (exec [start; captureUtterance (hears "hi"); stop] initial_machine)))
   = run (session (exec [start; captureUtterance (hears "hi"); stop] initial_machine))).
Proof.
  split.
  - apply (proj1 synthesis_failure_returns_none
             (polly_down unknown_error) " hi" "Aditi" initial_machine).
    left. exists unknown_error. reflexivity.
  - apply (proj2 synthesis_failure_returns_none polly_refuses
             (exec [start; captureUtterance (hears "hi"); stop] initial_machine)).
    right. exists tt, unknown_error. split; reflexivity.
Defined.

(** ** The end-to-end scenario *)

Lemma main_convert_not_pressed_calls (w : polly_world) (m : machine) :
  synthesize_calls (log (snd (main_convert false w m))) = synthesize_calls (log m).
Proof.
  unfold main_convert, bind, get_session, emit, ret.
  destruct (negb (run (session m)) && truthy (text (session m))); cbn;
    [|reflexivity].
  rewrite synthesize_calls_app. cbn. apply app_nil_r.
Qed.

Lemma main_convert_init_fails_calls
  (pressed : bool) (w : polly_world) (m : machine) (e : exn) :
  w_boto3_client w = Raise e ->
  synthesize_calls (log (snd (main_convert pressed w m))) = synthesize_calls (log m).
Proof.
  intros He. destruct pressed; [|apply main_convert_not_pressed_calls].
  unfold main_convert, bind, get_session.
  destruct (negb (run (session m)) && truthy (text (session m))); [|reflexivity].
  unfold emit at 1.
  rewrite (text_to_speech_init_fails w _ _ _ e He). cbn.
  rewrite !synthesize_calls_app. cbn. now rewrite !app_nil_r.
Qed.

Lemma main_stop (w : world) (m : machine) :
  main (Some StopListening) w m
  = main_convert false (polly w)
      {| session := {| text := text (session m); run := false;
                       status := "Recording stopped. Processing final text..." |};
         log := ((log m
                  ++ [ev_st_markdown ("<div class='status-box'>"
                                      ++ status (session m) ++ "</div>")])
                 ++ [ev_st_subheader "Live Transcription:"])
                ++ [ev_st_markdown ("<div class='transcription-box'>"
                                    ++ text (session m) ++ "</div>")] |}.
Proof.
  reflexivity.
Qed.

Lemma rerun_start_success (w : world) (m : machine) (t : string) :
  capture_succeeds_with (speech w) t ->
  session (rerun m (Some StartListening, w))
  = {| text := " " ++ t; run := true; status := "Transcription successful!" |} /\
  synthesize_calls (log (rerun m (Some StartListening, w))) = synthesize_calls (log m).
Proof.
  intros H. unfold rerun. cbn [fst snd]. rewrite main_start.
  match goal with
  | |- context [listen_and_transcribe ?sw ?m1] =>
      destruct (listen_and_transcribe_success sw m1 t H) as [Hr Hs];
      pose proof (listen_and_transcribe_synthesize_calls sw m1) as Hc;
      destruct (listen_and_transcribe sw m1) as [r m2]
  end.
  cbn in Hr, Hs, Hc. subst r.
  rewrite main_convert_disabled by (left; cbn; rewrite Hs; reflexivity).
  cbn [snd session log]. split; [exact Hs|].
  rewrite !synthesize_calls_app, Hc, synthesize_calls_app. cbn.
  now rewrite !app_nil_r.
Qed.

Lemma rerun_stop (w : world) (m : machine) :
  session (rerun m (Some StopListening, w))
  = {| text := text (session m); run := false;
       status := "Recording stopped. Processing final text..." |} /\
  synthesize_calls (log (rerun m (Some StopListening, w))) = synthesize_calls (log m).
Proof.
  unfold rerun. cbn [fst snd]. rewrite main_stop.
  rewrite main_convert_session, main_convert_not_pressed_calls. cbn [session log].
  split; [reflexivity|].
  rewrite !synthesize_calls_app. cbn. now rewrite !app_nil_r.
Qed.

Lemma rerun_convert_calls (w : world) (m : machine) (c : unit) :
  run (session m) = false ->
  truthy (text (session m)) = true ->
  w_boto3_client (polly w) = Return c ->
  synthesize_calls (log (rerun m (Some ConvertToAccent, w)))
  = (synthesize_calls (log m) ++ [(text (session m), "Aditi")])%list.
Proof.
  intros Hrun Htext Hc. unfold rerun. cbn [fst snd].
  rewrite main_without_start_stop by reflexivity. cbn [st_button button_eqb].
  rewrite (main_convert_enabled_calls _ _ c) by assumption. cbn [session log].
  rewrite !synthesize_calls_app. cbn. now rewrite !app_nil_r.
Qed.

(** C5, as the code has it: after start(), a capture returning
    "testing one two", stop() and convert(), and provided the Polly client
    could be created, synthesize_speech has been called exactly once more
    than before, with Text " testing one two" and VoiceId the default voice
    (Aditi); the same holds of the three clicks Start, Stop, Convert through
    the script.  When the client cannot be created, no request is made. *)
Theorem end_to_end_one_request_with_default_voice :
  (forall sw pw m c,
      capture_succeeds_with sw "testing one two" ->
      w_boto3_client pw = Return c ->
      synthesize_calls (log (exec [start; captureUtterance sw; stop; convert pw] m))
      = (synthesize_calls (log m) ++ [(" testing one two", default_voice_id)])%list) /\
  (forall w1 w2 w3 m c,
      capture_succeeds_with (speech w1) "testing one two" ->
      w_boto3_client (polly w3) = Return c ->
      synthesize_calls
        (log (reruns [(Some StartListening, w1); (Some StopListening, w2);
                      (Some ConvertToAccent, w3)] m))
      = (synthesize_calls (log m) ++ [(" testing one two", default_voice_id)])%list) /\
  (forall sw pw m e,
      w_boto3_client pw = Raise e ->
      synthesize_calls (log (exec [start; captureUtterance sw; stop; convert pw] m))
      = synthesize_calls (log m)).
Proof.
  split; [|split].
  - intros sw pw m c Hcap Hc. cbn [exec fold_left].
    unfold step at 1. cbn [transition_body].
    set (m3 := step stop (step (captureUtterance sw) (step start m))).
    assert (Hs : session m3
                 = {| text := " testing one two"; run := false;
                      status := "Recording stopped. Processing final text..." |}).
    { unfold m3, step. cbn [transition_body].
      destruct (listen_and_transcribe_success sw
                  (snd (start_transcription m)) _ Hcap) as [_ Hs].
      unfold stop_transcription, bind, set_run, set_status. cbn [snd session].
      rewrite Hs. reflexivity. }
    assert (Hl : synthesize_calls (log m3) = synthesize_calls (log m)).
    { unfold m3, step. cbn [transition_body].
      unfold stop_transcription, bind, set_run, set_status. cbn [snd log].
      rewrite listen_and_transcribe_synthesize_calls. reflexivity. }
    rewrite (main_convert_enabled_calls pw m3 c); [|rewrite Hs; reflexivity|rewrite Hs; reflexivity|exact Hc].
    rewrite Hl, Hs. reflexivity.
  - intros w1 w2 w3 m c Hcap Hc. cbn [reruns fold_left].
    destruct (rerun_start_success w1 m _ Hcap) as [Hs1 Hl1].
    destruct (rerun_stop w2 (rerun m (Some StartListening, w1))) as [Hs2 Hl2].
    rewrite Hs1 in Hs2. cbn [text] in Hs2.
    rewrite (rerun_convert_calls w3 _ c); [|rewrite Hs2; reflexivity|rewrite Hs2; reflexivity|exact Hc].
    rewrite Hl2, Hl1, Hs2. reflexivity.
  - intros sw pw m e He. cbn [exec fold_left].
    unfold step at 1. cbn [transition_body].
    rewrite (main_convert_init_fails_calls true pw _ e He).
    unfold step. cbn [transition_body].
    unfold stop_transcription, bind, set_run, set_status. cbn [snd log].
    rewrite listen_and_transcribe_synthesize_calls. reflexivity.
Qed.

Lemma end_to_end_one_request_with_default_voice_witness :
  synthesize_calls
    (log (exec [start; captureUtterance (hears "testing one two"); stop;
                convert (polly_ok "/tmp/tmpab12.mp3" [])] initial_machine))
  = [(" testing one two", "Aditi")].
Proof.
  apply (proj1 end_to_end_one_request_with_default_voice
           (hears "testing one two") (polly_ok "/tmp/tmpab12.mp3" [])
           initial_machine tt).
  - split; reflexivity.
  - reflexivity.
Defined.

(** C5, as stated, fails: when boto3 cannot create the Polly client, the
    same four calls end with no synthesis request at all. *)
Lemma end_to_end_without_client_no_request :
  capture_succeeds_with (hears "testing one two") "testing one two" /\
  synthesize_calls
    (log (exec [start; captureUtterance (hears "testing one two"); stop;
                convert (polly_down unknown_error)] initial_machine))
  = [] /\
  List.length
    (synthesize_calls
       (log (exec [start; captureUtterance (hears "testing one two"); stop;
                   convert (polly_down unknown_error)] initial_machine)))
  <> 1.
Proof.
  split; [split; reflexivity|]. split; [reflexivity|]. cbn. discriminate.
Qed.

(** * Further properties of the script *)

Lemma speech_calls_app (l1 l2 : list event) :
  speech_calls (l1 ++ l2) = (speech_calls l1 ++ speech_calls l2)%list.
Proof.
  induction l1 as [|e l1 IH]; cbn; [reflexivity|].
  destruct e; cbn; rewrite IH; reflexivity.
Qed.

Lemma ui_messages_app (l1 l2 : list event) :
  ui_messages (l1 ++ l2) = (ui_messages l1 ++ ui_messages l2)%list.
Proof.
  induction l1 as [|e l1 IH]; cbn; [reflexivity|].
  destruct e; cbn; rewrite IH; reflexivity.
Qed.

Lemma status_boxes_app (l1 l2 : list event) :
  status_boxes (l1 ++ l2) = (status_boxes l1 ++ status_boxes l2)%list.
Proof.
  induction l1 as [|e l1 IH]; cbn [status_boxes app]; [reflexivity|].
  destruct e; try exact IH.
  destruct (starts_with _ body); cbn; rewrite IH; reflexivity.
Qed.

Lemma app_singleton_neq {A} (l : list A) (x : A) : (l ++ [x])%list <> l.
Proof.
  intros H. apply (f_equal (@List.length A)) in H.
  rewrite length_app in H. cbn in H. lia.
Qed.

(** ** Runs of the script, one click each *)

Lemma rerun_run (a : option button * world) (m : machine) :
  run (session (rerun m a))
  = match start_or_stop_click a with
    | Some b => b
    | None => run (session m)
    end.
Proof.
  destruct a as [[[| |]|] w]; unfold start_or_stop_click;
    script_unfold; world_cases; first [reflexivity | congruence].
Qed.

(** X1: over every sequence of runs of the script, whatever each run meets
    (a failed capture, an exception from the microphone that ends the run, a
    failed synthesis), the recording flag ends as the most recent Start or
    Stop click left it: true after Start, false after Stop, as it was when
    neither was clicked. *)
Theorem recording_flag_follows_clicks (acts : list (option button * world)) (m : machine) :
  run (session (reruns acts m))
  = match most_recent_click acts with
    | Some b => b
    | None => run (session m)
    end.
Proof.
  revert m. induction acts as [|a acts IH]; intros m; [reflexivity|].
  cbn [reruns fold_left most_recent_click].
  change (fold_left rerun acts (rerun m a)) with (reruns acts (rerun m a)).
  rewrite IH. destruct (most_recent_click acts); [reflexivity|].
  apply rerun_run.
Qed.

Lemma rerun_text (a : option button * world) (m : machine) :
  text (session (rerun m a))
  = match fst a with
    | Some StartListening => transcript_after_start (speech (snd a))
    | _ => text (session m)
    end.
Proof.
  destruct a as [[[| |]|] w];
    unfold transcript_after_start, try_outcome, recognition_outcome;
    script_unfold; world_cases; first [reflexivity | congruence].
Qed.

(** X2: through the script the transcript never accumulates: after any
    sequence of runs it is what the most recent Start click left: one space
    and the recognised text when that capture reached the append of line 82
    (listen, recognize_google and the print of the text all returned), empty
    when the microphone could not be opened or listen, recognize_google or
    print raised; and it is the transcript held before when Start was never
    clicked. *)
Theorem transcript_is_last_start_capture (acts : list (option button * world)) (m : machine) :
  text (session (reruns acts m))
  = match most_recent_start acts with
    | Some w => transcript_after_start (speech w)
    | None => text (session m)
    end.
Proof.
  revert m. induction acts as [|a acts IH]; intros m; [reflexivity|].
  cbn [reruns fold_left most_recent_start].
  change (fold_left rerun acts (rerun m a)) with (reruns acts (rerun m a)).
  rewrite IH. destruct (most_recent_start acts); [reflexivity|].
  rewrite rerun_text. destruct a as [[[| |]|] w]; reflexivity.
Qed.

Lemma leading_space_append (s t : string) :
  empty_or_leading_space s = true ->
  empty_or_leading_space (s ++ " " ++ t) = true.
Proof.
  destruct s as [|c s]; cbn; intros H; [reflexivity | exact H].
Qed.

Lemma step_leading_space (t : transition) (m : machine) :
  empty_or_leading_space (text (session m)) = true ->
  empty_or_leading_space (text (session (step t m))) = true.
Proof.
  intros H. destruct t as [| |w|w]; unfold step; cbn [transition_body].
  - reflexivity.
  - exact H.
  - destruct (capture_cases w) as [[e He]|[[t Ht]|[e He]]].
    + rewrite (listen_and_transcribe_setup_raises w m e He). exact H.
    + destruct (listen_and_transcribe_success w m t Ht) as [_ ->].
      cbn [text]. now apply leading_space_append.
    + destruct (listen_and_transcribe_failure w m e He) as [_ ->]. exact H.
  - rewrite main_convert_session. exact H.
Qed.

(** X3: a transcript that is empty or begins with a space stays so under
    every sequence of start, stop, captureUtterance and convert calls:
    from the initial session every non-empty transcript begins with the
    space that line 82 puts before each utterance. *)
Theorem transcript_keeps_leading_space (ts : list transition) (m : machine)
  (H : empty_or_leading_space (text (session m)) = true) :
  empty_or_leading_space (text (session (exec ts m))) = true.
Proof.
  revert m H. induction ts as [|t ts IH]; intros m H; [exact H|].
  cbn [exec fold_left].
  change (fold_left (fun m t => step t m) ts (step t m)) with (exec ts (step t m)).
  apply IH. now apply step_leading_space.
Qed.

Lemma transcript_keeps_leading_space_witness :
  empty_or_leading_space
    (text (session (exec [start; captureUtterance (hears "hello");
                          captureUtterance (mishears timed_out);
                          captureUtterance (hears "world"); stop]
                      initial_machine)))
  = true.
Proof.
  apply (transcript_keeps_leading_space
           [start; captureUtterance (hears "hello");
            captureUtterance (mishears timed_out);
            captureUtterance (hears "world"); stop] initial_machine).
  reflexivity.
Defined.

(** ** What a run asks of the outside world *)

Lemma rerun_well_formed (a : option button * world) (m : machine) :
  forallb well_formed_request (log m) = true ->
  forallb well_formed_request (log (rerun m a)) = true.
Proof.
  intros H. destruct a as [[[| |]|] w]; script_unfold; world_cases;
    rewrite ?forallb_app, ?H; cbn;
    repeat match goal with
           | E : truthy _ = true |- _ => rewrite E
           end;
    first [reflexivity | congruence].
Qed.

Lemma step_well_formed (t : transition) (m : machine) :
  forallb well_formed_request (log m) = true ->
  forallb well_formed_request (log (step t m)) = true.
Proof.
  intros H. destruct t as [| |w|w]; script_unfold; world_cases;
    rewrite ?forallb_app, ?H; cbn;
    repeat match goal with
           | E : truthy _ = true |- _ => rewrite E
           end;
    first [reflexivity | congruence].
Qed.

(** X4: whatever the user clicks and whatever the world answers, every
    request the script ever sends to Polly carries a non-empty text, the
    output format mp3 and the voice Aditi; the same holds of every sequence
    of start, stop, captureUtterance and convert calls. *)
Theorem every_request_is_well_formed
  (acts : list (option button * world)) (ts : list transition) (m : machine)
  (H : forallb well_formed_request (log m) = true) :
  forallb well_formed_request (log (reruns acts m)) = true /\
  forallb well_formed_request (log (exec ts m)) = true.
Proof.
  split.
  - revert m H. induction acts as [|a acts IH]; intros m H; [exact H|].
    cbn [reruns fold_left].
    change (fold_left rerun acts (rerun m a)) with (reruns acts (rerun m a)).
    apply IH. now apply rerun_well_formed.
  - revert m H. induction ts as [|t ts IH]; intros m H; [exact H|].
    cbn [exec fold_left].
    change (fold_left (fun m t => step t m) ts (step t m)) with (exec ts (step t m)).
    apply IH. now apply step_well_formed.
Qed.

Lemma every_request_is_well_formed_witness :
  forallb well_formed_request
    (log (reruns [(Some ConvertToAccent,
                   {| speech := hears "hi"; polly := polly_ok "/tmp/a.mp3" [] |});
                  (Some StartListening,
                   {| speech := hears "hi"; polly := polly_ok "/tmp/a.mp3" [] |});
                  (Some StopListening,
                   {| speech := hears "hi"; polly := polly_ok "/tmp/a.mp3" [] |});
                  (Some ConvertToAccent,
                   {| speech := hears "hi"; polly := polly_ok "/tmp/a.mp3" [] |})]
            initial_machine))
  = true /\
  forallb well_formed_request
    (log (exec [convert (polly_ok "/tmp/a.mp3" []); start;
                captureUtterance (hears "hi"); stop;
                convert (polly_ok "/tmp/a.mp3" [])] initial_machine))
  = true.
Proof.
  apply (every_request_is_well_formed
           [(Some ConvertToAccent,
             {| speech := hears "hi"; polly := polly_ok "/tmp/a.mp3" [] |});
            (Some StartListening,
             {| speech := hears "hi"; polly := polly_ok "/tmp/a.mp3" [] |});
            (Some StopListening,
             {| speech := hears "hi"; polly := polly_ok "/tmp/a.mp3" [] |});
            (Some ConvertToAccent,
             {| speech := hears "hi"; polly := polly_ok "/tmp/a.mp3" [] |})]
           [convert (polly_ok "/tmp/a.mp3" []); start;
            captureUtterance (hears "hi"); stop;
            convert (polly_ok "/tmp/a.mp3" [])]
           initial_machine).
  reflexivity.
Defined.

(** X5: only a click on Convert reaches boto3 or Polly: a run of the script
    for a Start click, a Stop click or no click creates no client and sends no
    request, whatever the session and the capture's outcome. *)
Theorem only_convert_click_calls_polly
  (clicked : option button) (w : world) (m : machine)
  (H : clicked <> Some ConvertToAccent) :
  client_calls (log (rerun m (clicked, w))) = client_calls (log m).
Proof.
  destruct clicked as [[| |]|]; [| |exfalso; now apply H|];
    script_unfold; world_cases;
    rewrite ?client_calls_app; cbn; rewrite ?app_nil_r; reflexivity.
Qed.

Lemma only_convert_click_calls_polly_witness :
  client_calls
    (log (rerun (exec [start; captureUtterance (hears "hi"); stop] initial_machine)
            (Some StartListening,
             {| speech := hears "again"; polly := polly_ok "/tmp/a.mp3" [] |})))
  = client_calls (log (exec [start; captureUtterance (hears "hi"); stop] initial_machine)).
Proof.
  apply (only_convert_click_calls_polly (Some StartListening)
           {| speech := hears "again"; polly := polly_ok "/tmp/a.mp3" [] |}
           (exec [start; captureUtterance (hears "hi"); stop] initial_machine)).
  discriminate.
Defined.

(** X6: a run of the script calls the speech_recognition library only for a
    Start click, and then in a fixed order: the microphone is opened once;
    if that raises nothing else is called; otherwise listen is called exactly
    once, with timeout 5 and phrase limit 5, and recognize_google is called,
    once and on the audio listen returned, only when listen returned. *)
Theorem speech_library_calls_of_a_run (clicked : option button) (w : world) (m : machine) :
  speech_calls (log (rerun m (clicked, w)))
  = (speech_calls (log m)
     ++ match clicked with
        | Some StartListening =>
            ev_Microphone ::
            match w_Microphone (speech w) with
            | Some _ => []
            | None =>
                ev_listen 5 5 ::
                match w_listen (speech w) with
                | Return audio => [ev_recognize_google audio]
                | Raise _ => []
                end
            end
        | _ => []
        end)%list.
Proof.
  destruct clicked as [[| |]|]; script_unfold; world_cases;
    rewrite ?speech_calls_app; cbn; rewrite ?app_nil_r, <- ?app_assoc; reflexivity.
Qed.

(** X7: every run of the script renders the status box exactly once, and
    with the status stored before the click was handled (line 153 precedes
    the button handlers): what the handlers of this run write to the status
    is not on the page this run draws. *)
Theorem status_box_shows_status_before_click
  (clicked : option button) (w : world) (m : machine) :
  status_boxes (log (rerun m (clicked, w)))
  = (status_boxes (log m)
     ++ [ev_st_markdown ("<div class='status-box'>" ++ status (session m) ++ "</div>")])%list.
Proof.
  destruct clicked as [[| |]|]; script_unfold; world_cases;
    rewrite ?status_boxes_app; cbn; rewrite ?app_nil_r; reflexivity.
Qed.

(** X8: when the microphone cannot be opened, a Start click ends the run of
    the script with that exception: the session is left as start_transcription
    made it (recording flag true, transcript empty, status "Recording started.
    Please speak clearly."), only the status box was drawn, and a following
    click on Convert, finding the flag still true, makes no call to boto3 or
    Polly. *)
Theorem start_click_without_microphone
  (w w' : world) (m : machine) (e : exn)
  (H : w_Microphone (speech w) = Some e) :
  main (Some StartListening) w m
  = (Raise e,
     {| session := {| text := ""; run := true;
                      status := "Recording started. Please speak clearly." |};
        log := (log m
                ++ [ev_st_markdown ("<div class='status-box'>"
                                    ++ status (session m) ++ "</div>")])
               ++ [ev_Microphone] |}) /\
  client_calls (log (reruns [(Some StartListening, w); (Some ConvertToAccent, w')] m))
  = client_calls (log m).
Proof.
  assert (Hmain : main (Some StartListening) w m
                  = (Raise e,
                     {| session := {| text := ""; run := true;
                                      status := "Recording started. Please speak clearly." |};
                        log := (log m
                                ++ [ev_st_markdown ("<div class='status-box'>"
                                                    ++ status (session m) ++ "</div>")])
                               ++ [ev_Microphone] |})).
  { script_unfold. cbn. rewrite H. reflexivity. }
  split; [exact Hmain|].
  cbn [reruns fold_left]. unfold rerun at 2. cbn [fst snd]. rewrite Hmain. cbn [snd].
  unfold rerun. cbn [fst snd].
  rewrite main_without_start_stop by reflexivity.
  rewrite main_convert_disabled by (left; reflexivity).
  cbn [snd log]. rewrite !client_calls_app. cbn. now rewrite !app_nil_r.
Qed.

Lemma start_click_without_microphone_witness :
  fst (main (Some StartListening)
         {| speech := no_microphone unknown_error; polly := polly_ok "/tmp/a.mp3" [] |}
         initial_machine)
  = Raise unknown_error /\
  run (session (snd (main (Some StartListening)
                       {| speech := no_microphone unknown_error;
                          polly := polly_ok "/tmp/a.mp3" [] |}
                       initial_machine)))
  = true.
Proof.
  rewrite (proj1 (start_click_without_microphone
                    {| speech := no_microphone unknown_error;
                       polly := polly_ok "/tmp/a.mp3" [] |}
                    {| speech := no_microphone unknown_error;
                       polly := polly_ok "/tmp/a.mp3" [] |}
                    initial_machine unknown_error eq_refl)).
  split; reflexivity.
Defined.

(** X9: after a Start click the stored status is "Recording started. Please
    speak clearly." exactly when the microphone could not be opened: in every
    other case listen_and_transcribe has overwritten it with the outcome of
    the capture before the run ends. *)
Theorem started_status_survives_iff_no_microphone (w : world) (m : machine) :
  status (session (rerun m (Some StartListening, w)))
  = "Recording started. Please speak clearly."
  <-> exists e, w_Microphone (speech w) = Some e.
Proof.
  script_unfold; world_cases;
    (split; [intros H; first [discriminate H | eexists; reflexivity]
            | intros [e' He']; first [discriminate He' | reflexivity]]).
Qed.

(** ** Conversion, step by step *)

Lemma rerun_convert_session (w : world) (m : machine) :
  session (rerun m (Some ConvertToAccent, w)) = session m.
Proof.
  unfold rerun. cbn [fst snd].
  rewrite main_without_start_stop by reflexivity.
  now rewrite main_convert_session.
Qed.

(** X10: conversion keeps nothing from one click to the next: in a stopped
    session with a transcript, any number of Convert clicks, each finding a
    client, sends that many requests, all with the same transcript and the
    voice Aditi, and leaves the session as it was. *)
Theorem each_convert_click_sends_a_request (ws : list world) (m : machine)
  (Hrun : run (session m) = false)
  (Htext : truthy (text (session m)) = true)
  (Hclient : Forall (fun w => exists c, w_boto3_client (polly w) = Return c) ws) :
  session (reruns (map (fun w => (Some ConvertToAccent, w)) ws) m) = session m /\
  synthesize_calls (log (reruns (map (fun w => (Some ConvertToAccent, w)) ws) m))
  = (synthesize_calls (log m)
     ++ repeat (text (session m), "Aditi") (List.length ws))%list.
Proof.
  revert m Hrun Htext. induction Hclient as [|w ws [c Hc] _ IH]; intros m Hrun Htext.
  - cbn. split; [reflexivity | now rewrite app_nil_r].
  - cbn [map reruns fold_left List.length repeat].
    change (fold_left rerun (map (fun w => (Some ConvertToAccent, w)) ws)
              (rerun m (Some ConvertToAccent, w)))
      with (reruns (map (fun w => (Some ConvertToAccent, w)) ws)
              (rerun m (Some ConvertToAccent, w))).
    pose proof (rerun_convert_session w m) as Hs.
    destruct (IH (rerun m (Some ConvertToAccent, w))) as [IHs IHc].
    + now rewrite Hs.
    + now rewrite Hs.
    + rewrite IHs, IHc, Hs. split; [reflexivity|].
      rewrite (rerun_convert_calls w m c Hrun Htext Hc).
      now rewrite <- app_assoc.
Qed.

Lemma each_convert_click_sends_a_request_witness :
  synthesize_calls
    (log (reruns (map (fun w => (Some ConvertToAccent, w))
                    [ {| speech := hears "x"; polly := polly_ok "/tmp/a.mp3" [] |};
                      {| speech := hears "x"; polly := polly_refuses |} ])
            (exec [start; captureUtterance (hears "hi"); stop] initial_machine)))
  = [(" hi", "Aditi"); (" hi", "Aditi")].
Proof.
  refine (proj2 (each_convert_click_sends_a_request
                   [ {| speech := hears "x"; polly := polly_ok "/tmp/a.mp3" [] |};
                     {| speech := hears "x"; polly := polly_refuses |} ]
                   (exec [start; captureUtterance (hears "hi"); stop] initial_machine)
                   _ _ _)).
  - reflexivity.
  - reflexivity.
  - apply Forall_cons; [exists tt; reflexivity|].
    apply Forall_cons; [exists tt; reflexivity|].
    apply Forall_nil.
Defined.

(** What [text_to_speech] returns, read off the answers of the world. *)
Lemma text_to_speech_result (w : polly_world) (txt voice : string) (m : machine) :
  fst (text_to_speech w txt voice m)
  = match w_boto3_client w with
    | Raise _ => Return None
    | Return _ =>
        match w_synthesize_speech w txt "mp3" voice with
        | Raise _ => Return None
        | Return response =>
            match w_NamedTemporaryFile w with
            | Raise _ => Return None
            | Return name =>
                match AudioStream_read response with
                | Raise _ => Return None
                | Return data =>
                    match w_write w data with
                    | Raise _ => Return None
                    | Return _ => Return (Some name)
                    end
                end
            end
        end
    end.
Proof.
  script_unfold; world_cases; reflexivity.
Qed.

(** X11: text_to_speech returns a file name exactly when every step
    succeeded (client, request, temporary file, reading the stream, writing),
    and the name is then the temporary file's; a failure at any step gives
    None. *)
Theorem text_to_speech_returns_name_iff_all_succeed
  (w : polly_world) (txt voice name : string) (m : machine) :
  fst (text_to_speech w txt voice m) = Return (Some name)
  <-> exists data, synthesis_succeeds w txt voice name data.
Proof.
  rewrite text_to_speech_result. unfold synthesis_succeeds. split.
  - intros H.
    destruct (w_boto3_client w) as [c|]; [|discriminate].
    destruct (w_synthesize_speech w txt "mp3" voice) as [r|]; [|discriminate].
    destruct (w_NamedTemporaryFile w) as [n|]; [|discriminate].
    destruct (AudioStream_read r) as [d|] eqn:Hd; [|discriminate].
    destruct (w_write w d) as [u|] eqn:Hw; [|discriminate].
    injection H as ->. exists d, c, r, u. repeat split; assumption.
  - intros (d & c & r & u & H1 & H2 & H3 & H4 & H5).
    rewrite H1, H2, H3, H4, H5. reflexivity.
Qed.

(** X12: text_to_speech never fails silently and never raises: when it
    returns None it has shown exactly one st.error message, and when it
    returns a file name it has shown none. *)
Theorem text_to_speech_reports_each_failure
  (w : polly_world) (txt voice : string) (m : machine) :
  match fst (text_to_speech w txt voice m) with
  | Return (Some _) =>
      ui_messages (log (snd (text_to_speech w txt voice m))) = ui_messages (log m)
  | Return None =>
      exists msg,
        ui_messages (log (snd (text_to_speech w txt voice m)))
        = (ui_messages (log m) ++ [ev_st_error msg])%list
  | Raise _ => False
  end.
Proof.
  script_unfold; world_cases;
    rewrite ?ui_messages_app; cbn; rewrite ?app_nil_r;
    first [reflexivity | eexists; reflexivity].
Qed.

(** X13: when every step succeeds, convert() in a stopped session with a
    transcript asks Polly for the whole transcript, writes to the temporary
    file exactly the bytes Polly streamed, and plays that file as audio/mp3
    with autoplay (provided the file name is not empty); nothing else is
    logged. *)
Theorem convert_writes_and_plays_the_clip
  (w : polly_world) (m : machine) (name : string) (data : audio_data)
  (Hrun : run (session m) = false)
  (Htext : truthy (text (session m)) = true)
  (Hok : synthesis_succeeds w (text (session m)) "Aditi" name data) :
  log (step (convert w) m)
  = (log m
     ++ [ev_st_subheader "Convert to Speech with Indian Accent";
         ev_boto3_client "polly";
         ev_synthesize_speech (text (session m)) "mp3" "Aditi";
         ev_NamedTemporaryFile ".mp3";
         ev_write name data]
     ++ (if truthy name then [ev_st_audio name "audio/mp3" true] else []))%list.
Proof.
  destruct Hok as (c & r & u & H1 & H2 & H3 & H4 & H5).
  script_unfold. cbn. rewrite Hrun, Htext. cbn.
  rewrite H1. cbn. rewrite H2. cbn. rewrite H3. cbn. rewrite H4. cbn.
  rewrite H5. cbn.
  destruct (truthy name); cbn; rewrite <- ?app_assoc; cbn; reflexivity.
Qed.

Lemma convert_writes_and_plays_the_clip_witness :
  log (step (convert (polly_ok "/tmp/tmpab12.mp3" [x01; x02]))
         (exec [start; captureUtterance (hears "hi"); stop] initial_machine))
  = (log (exec [start; captureUtterance (hears "hi"); stop] initial_machine)
     ++ [ev_st_subheader "Convert to Speech with Indian Accent";
         ev_boto3_client "polly";
         ev_synthesize_speech " hi" "mp3" "Aditi";
         ev_NamedTemporaryFile ".mp3";
         ev_write "/tmp/tmpab12.mp3" [x01; x02]]
     ++ [ev_st_audio "/tmp/tmpab12.mp3" "audio/mp3" true])%list.
Proof.
  apply (convert_writes_and_plays_the_clip
           (polly_ok "/tmp/tmpab12.mp3" [x01; x02])
           (exec [start; captureUtterance (hears "hi"); stop] initial_machine)
           "/tmp/tmpab12.mp3" [x01; x02]).
  - reflexivity.
  - reflexivity.
  - exists tt, {| AudioStream_read := Return [x01; x02] |}, tt.
    repeat split; reflexivity.
Defined.

(** X14: the temporary file is created before the stream is read (lines
    56-57): when reading the stream raises, text_to_speech returns None
    although NamedTemporaryFile(delete=False) has already made the file,
    which is then neither written nor played, and whose name is lost. *)
Theorem broken_stream_leaves_temporary_file
  (w : polly_world) (txt voice name : string) (m : machine)
  (c : unit) (response : polly_response) (e : exn)
  (Hclient : w_boto3_client w = Return c)
  (Hrequest : w_synthesize_speech w txt "mp3" voice = Return response)
  (Hfile : w_NamedTemporaryFile w = Return name)
  (Hread : AudioStream_read response = Raise e) :
  fst (text_to_speech w txt voice m) = Return None /\
  audio_artifacts (log (snd (text_to_speech w txt voice m)))
  = (audio_artifacts (log m) ++ [ev_NamedTemporaryFile ".mp3"])%list.
Proof.
  script_unfold. cbn. rewrite Hclient. cbn. rewrite Hrequest. cbn.
  rewrite Hfile. cbn. rewrite Hread. cbn. split; [reflexivity|].
  rewrite !audio_artifacts_app. cbn. now rewrite !app_nil_r.
Qed.

Lemma broken_stream_leaves_temporary_file_witness :
  fst (text_to_speech (polly_broken_stream "/tmp/tmpab12.mp3") " hi" "Aditi"
         initial_machine)
  = Return None /\
  audio_artifacts
    (log (snd (text_to_speech (polly_broken_stream "/tmp/tmpab12.mp3") " hi" "Aditi"
                 initial_machine)))
  = (audio_artifacts (log initial_machine) ++ [ev_NamedTemporaryFile ".mp3"])%list.
Proof.
  apply (broken_stream_leaves_temporary_file
           (polly_broken_stream "/tmp/tmpab12.mp3") " hi" "Aditi" "/tmp/tmpab12.mp3"
           initial_machine tt {| AudioStream_read := Raise unknown_error |}
           unknown_error);
    reflexivity.
Defined.

(** ** What a capture tells the user *)

(** X15: when the microphone opens, the status left by captureUtterance is
    "Transcription successful!" exactly when the try block reached line 83,
    that is when listen, recognize_google and the print of the recognised
    text all returned; in particular it is not that status when recognition
    returned and the print raised.  It is never one of the two progress
    messages written on the way ("Listening... Please speak.",
    "Processing speech..."), whatever detail an error carries. *)
Theorem status_reports_success_iff_success (w : speech_world) (m : machine)
  (H : w_Microphone w = None) :
  (status (session (step (captureUtterance w) m)) = "Transcription successful!"
   <-> exists t, capture_succeeds_with w t) /\
  (forall t e,
      recognition_outcome w = Return t ->
      w_print w t = Raise e ->
      status (session (step (captureUtterance w) m)) <> "Transcription successful!") /\
  status (session (step (captureUtterance w) m)) <> "Listening... Please speak." /\
  status (session (step (captureUtterance w) m)) <> "Processing speech...".
Proof.
  unfold step. cbn [transition_body].
  assert (Hfailed : forall e, capture_fails_with w e ->
            status (session (snd (listen_and_transcribe w m)))
            <> "Transcription successful!").
  { intros e He. destruct (listen_and_transcribe_failure w m e He) as [_ ->].
    cbn [status]. destruct (exn_cls e); cbn; discriminate. }
  split; [|split].
  - destruct (capture_cases w) as [[e He]|[[t Ht]|[e He]]].
    + congruence.
    + destruct (listen_and_transcribe_success w m t Ht) as [_ ->]. cbn [status].
      split; [intros _; now exists t | reflexivity].
    + split.
      * intros Hs. exfalso. exact (Hfailed e He Hs).
      * intros [t [_ Ht]]. destruct He as [_ He]. congruence.
  - intros t e Hrec Hprint. apply (Hfailed e).
    split; [exact H|]. unfold try_outcome. now rewrite Hrec, Hprint.
  - destruct (capture_cases w) as [[e He]|[[t Ht]|[e He]]].
    + congruence.
    + destruct (listen_and_transcribe_success w m t Ht) as [_ ->]. cbn [status].
      split; discriminate.
    + destruct (listen_and_transcribe_failure w m e He) as [_ ->]. cbn [status].
      destruct (exn_cls e); cbn; split; discriminate.
Qed.

Lemma status_reports_success_iff_success_witness :
  (status (session (step (captureUtterance (hears_unprintable "café" cannot_encode))
                      initial_machine))
   = "Transcription successful!"
   <-> exists t, capture_succeeds_with (hears_unprintable "café" cannot_encode) t) /\
  (forall t e,
      recognition_outcome (hears_unprintable "café" cannot_encode) = Return t ->
      w_print (hears_unprintable "café" cannot_encode) t = Raise e ->
      status (session (step (captureUtterance (hears_unprintable "café" cannot_encode))
                         initial_machine))
      <> "Transcription successful!") /\
  status (session (step (captureUtterance (hears_unprintable "café" cannot_encode))
                     initial_machine))
  <> "Listening... Please speak." /\
  status (session (step (captureUtterance (hears_unprintable "café" cannot_encode))
                     initial_machine))
  <> "Processing speech...".
Proof.
  apply (status_reports_success_iff_success
           (hears_unprintable "café" cannot_encode) initial_machine).
  reflexivity.
Defined.

Lemma listen_and_transcribe_messages_success (w : speech_world) (m : machine) (t : string) :
  capture_succeeds_with w t ->
  ui_messages (log (snd (listen_and_transcribe w m))) = ui_messages (log m).
Proof.
  intros [Hmic Hrec]. script_unfold. cbn. rewrite Hmic. cbn.
  try_outcome_cases Hrec w.
  rewrite !ui_messages_app. cbn. now rewrite !app_nil_r.
Qed.

Lemma listen_and_transcribe_messages_failure (w : speech_world) (m : machine) (e : exn) :
  capture_fails_with w e ->
  ui_messages (log (snd (listen_and_transcribe w m)))
  = (ui_messages (log m)
     ++ match exn_cls e with
        | UnknownValueError => [ev_st_warning "Could not understand the audio."]
        | WaitTimeoutError => []
        | RequestError =>
            [ev_st_error ("Could not request results from Google Web Speech API; "
                          ++ exn_str e)]
        | OtherException =>
            [ev_st_error ("Error occurred during transcription: " ++ exn_str e)]
        end)%list.
Proof.
  intros [Hmic Hrec]. script_unfold. cbn. rewrite Hmic. cbn.
  try_outcome_cases Hrec w; destruct (exn_cls e); cbn;
    rewrite !ui_messages_app; cbn; now rewrite ?app_nil_r.
Qed.

(** X16: captureUtterance shows a message (st.error or st.warning) exactly
    when the microphone opened and the try block raised something other than
    a timeout, be it in listen, in recognize_google or in the print of the
    recognised text: a timeout (WaitTimeoutError) only writes the status, and
    a capture that reached the append, or one whose microphone did not open,
    shows nothing. *)
Theorem capture_shows_message_iff_failure_not_timeout (w : speech_world) (m : machine) :
  ui_messages (log (step (captureUtterance w) m)) <> ui_messages (log m)
  <-> exists e, capture_fails_with w e /\ exn_cls e <> WaitTimeoutError.
Proof.
  unfold step. cbn [transition_body].
  destruct (capture_cases w) as [[e He]|[[t Ht]|[e He]]].
  - rewrite (listen_and_transcribe_setup_raises w m e He). cbn [snd log].
    rewrite ui_messages_app. cbn. rewrite app_nil_r. split.
    + intros H. now contradiction H.
    + intros [e' [[Hmic _] _]]. congruence.
  - rewrite (listen_and_transcribe_messages_success w m t Ht). split.
    + intros H. now contradiction H.
    + intros [e' [[_ He'] _]]. destruct Ht as [_ Ht]. congruence.
  - rewrite (listen_and_transcribe_messages_failure w m e He). split.
    + intros H. exists e. split; [exact He|]. intros Hcls. apply H.
      rewrite Hcls. apply app_nil_r.
    + intros [e' [[_ He'] Hcls]]. destruct He as [_ He].
      assert (e' = e) by congruence. subst e'.
      destruct (exn_cls e); try (now contradiction Hcls); apply app_singleton_neq.
Qed.

(** ** Session initialisation *)

Lemma dict_get_set_same (k : string) (v : value) (d : session_dict) :
  dict_get k (dict_set k v d) = Some v.
Proof.
  induction d as [|[k' v'] d IH]; cbn.
  - now rewrite String.eqb_refl.
  - destruct (String.eqb k k') eqn:E; cbn; rewrite ?String.eqb_refl, ?E; auto.
Qed.

Lemma dict_get_set_other (k k' : string) (v : value) (d : session_dict) :
  k' <> k ->
  dict_get k' (dict_set k v d) = dict_get k' d.
Proof.
  intros Hne. induction d as [|[k0 v0] d IH]; cbn.
  - apply String.eqb_neq in Hne. now rewrite Hne.
  - destruct (String.eqb k k0) eqn:E; cbn.
    + apply String.eqb_eq in E. subst k0.
      apply String.eqb_neq in Hne. now rewrite Hne.
    + destruct (String.eqb k' k0); [reflexivity | exact IH].
Qed.

(** One guarded assignment: [if k not in d: d[k] = v]. *)
Lemma setdefault_get (k k' : string) (v : value) (d : session_dict) :
  dict_get k' (if dict_contains k d then d else dict_set k v d)
  = match dict_get k' d with
    | Some v' => Some v'
    | None => if String.eqb k' k then Some v else None
    end.
Proof.
  unfold dict_contains. destruct (dict_get k d) as [v0|] eqn:Hk.
  - destruct (dict_get k' d) as [v'|] eqn:Hk'; [reflexivity|].
    destruct (String.eqb k' k) eqn:E; [|reflexivity].
    apply String.eqb_eq in E. congruence.
  - destruct (String.eqb k' k) eqn:E.
    + apply String.eqb_eq in E. subst k'. rewrite dict_get_set_same, Hk. reflexivity.
    + apply String.eqb_neq in E. rewrite (dict_get_set_other k k' v d E).
      destruct (dict_get k' d); reflexivity.
Qed.

Lemma initialize_session_state_get (k : string) (d : session_dict) :
  dict_get k (initialize_session_state d)
  = match dict_get k d with
    | Some v => Some v
    | None =>
        if String.eqb k "text" then Some (VStr "")
        else if String.eqb k "run" then Some (VBool false)
        else if String.eqb k "status" then Some (VStr "Ready to start recording.")
        else None
    end.
Proof.
  unfold initialize_session_state. cbv zeta.
  rewrite !setdefault_get.
  destruct (dict_get k d) as [v|]; [reflexivity|].
  destruct (String.eqb k "text"); [reflexivity|].
  destruct (String.eqb k "run"); reflexivity.
Qed.

(** X17: the initialisation at the top of the script never overwrites: every
    key already in st.session_state keeps its value, each of 'text', 'run'
    and 'status' that is missing gets its default ('' , False, "Ready to start
    recording."), and no other key appears. *)
Theorem initialization_fills_only_missing_keys (d : session_dict) (k : string) :
  (forall v, dict_get k d = Some v -> dict_get k (initialize_session_state d) = Some v) /\
  (dict_get "text" d = None ->
   dict_get "text" (initialize_session_state d) = Some (VStr "")) /\
  (dict_get "run" d = None ->
   dict_get "run" (initialize_session_state d) = Some (VBool false)) /\
  (dict_get "status" d = None ->
   dict_get "status" (initialize_session_state d)
   = Some (VStr "Ready to start recording.")) /\
  (dict_get k d = None -> k <> "text" -> k <> "run" -> k <> "status" ->
   dict_get k (initialize_session_state d) = None).
Proof.
  repeat split.
  - intros v H. now rewrite initialize_session_state_get, H.
  - intros H. now rewrite initialize_session_state_get, H.
  - intros H. now rewrite initialize_session_state_get, H.
  - intros H. now rewrite initialize_session_state_get, H.
  - intros H H1 H2 H3. rewrite initialize_session_state_get, H.
    apply String.eqb_neq in H1, H2, H3. now rewrite H1, H2, H3.
Qed.

Lemma initialization_fills_only_missing_keys_witness :
  dict_get "run" (initialize_session_state [("run", VBool true)]) = Some (VBool true) /\
  dict_get "text" (initialize_session_state [("run", VBool true)]) = Some (VStr "") /\
  dict_get "status" (initialize_session_state [("run", VBool true)])
  = Some (VStr "Ready to start recording.").
Proof.
  split; [|split].
  - apply (proj1 (initialization_fills_only_missing_keys [("run", VBool true)] "run")).
    reflexivity.
  - apply (proj1 (proj2 (initialization_fills_only_missing_keys
                           [("run", VBool true)] "run"))).
    reflexivity.
  - apply (proj1 (proj2 (proj2 (proj2 (initialization_fills_only_missing_keys
                                         [("run", VBool true)] "run"))))).
    reflexivity.
Defined.

Lemma initialize_complete (d : session_dict) :
  dict_contains "text" d = true ->
  dict_contains "run" d = true ->
  dict_contains "status" d = true ->
  initialize_session_state d = d.
Proof.
  intros H1 H2 H3. unfold initialize_session_state. cbv zeta.
  now rewrite H1, H2, H3.
Qed.

Lemma initialize_contains (k : string) (d : session_dict) :
  k = "text" \/ k = "run" \/ k = "status" ->
  dict_contains k (initialize_session_state d) = true.
Proof.
  intros H. unfold dict_contains. rewrite initialize_session_state_get.
  destruct (dict_get k d); [reflexivity|].
  destruct H as [ -> | [ -> | -> ] ]; reflexivity.
Qed.

(** X18: the initialisation is idempotent, so running it again at the top of
    every run changes nothing; it leaves a session that already has the three
    keys exactly as it is (the transcript, flag and status survive from one
    run of the script to the next), and it turns the empty dictionary of a
    new session into the initial session. *)
Theorem initialization_preserves_session (d : session_dict) :
  initialize_session_state (initialize_session_state d) = initialize_session_state d /\
  (forall s, session_of_dict d = Some s ->
             initialize_session_state d = d /\
             session_of_dict (initialize_session_state d) = Some s) /\
  session_of_dict (initialize_session_state []) = Some initial_session_state.
Proof.
  split; [|split].
  - apply initialize_complete; apply initialize_contains; auto.
  - intros s Hs.
    assert (Hd : initialize_session_state d = d).
    { unfold session_of_dict in Hs. apply initialize_complete; unfold dict_contains;
        destruct (dict_get "text" d) as [[t|b1]|]; try discriminate;
        destruct (dict_get "run" d) as [[t2|b2]|]; try discriminate;
        destruct (dict_get "status" d) as [[t3|b3]|]; try discriminate; reflexivity. }
    split; [exact Hd | now rewrite Hd].
  - reflexivity.
Qed.

Lemma initialization_preserves_session_witness :
  initialize_session_state
    [("text", VStr " hello"); ("run", VBool true);
     ("status", VStr "Transcription successful!")]
  = [("text", VStr " hello"); ("run", VBool true);
     ("status", VStr "Transcription successful!")] /\
  session_of_dict
    (initialize_session_state
       [("text", VStr " hello"); ("run", VBool true);
        ("status", VStr "Transcription successful!")])
  = Some {| text := " hello"; run := true; status := "Transcription successful!" |}.
Proof.
  apply (proj1 (proj2 (initialization_preserves_session
                         [("text", VStr " hello"); ("run", VBool true);
                          ("status", VStr "Transcription successful!")]))).
  reflexivity.
Defined.

(** ** The page a run draws *)

Lemma transcription_boxes_app (l1 l2 : list event) :
  transcription_boxes (l1 ++ l2)
  = (transcription_boxes l1 ++ transcription_boxes l2)%list.
Proof.
  induction l1 as [|e l1 IH]; cbn [transcription_boxes app]; [reflexivity|].
  destruct e; try exact IH.
  destruct (starts_with _ body); cbn; rewrite IH; reflexivity.
Qed.


(** X20: a run of the script that returns draws the transcription box
    exactly once, with the transcript as the handlers of this very run left
    it: unlike the status, a fresh capture is on the page at once. *)
Theorem transcription_box_shows_transcript_after_click
  (clicked : option button) (w : world) (m : machine)
  (H : fst (main clicked w m) = Return tt) :
  transcription_boxes (log (rerun m (clicked, w)))
  = (transcription_boxes (log m)
     ++ [ev_st_markdown ("<div class='transcription-box'>"
                         ++ text (session (rerun m (clicked, w))) ++ "</div>")])%list.
Proof.
  destruct clicked as [[| |]|]; script_unfold; world_cases;
    try discriminate H;
    rewrite ?transcription_boxes_app; cbn; rewrite ?app_nil_r; reflexivity.
Qed.

Lemma transcription_box_shows_transcript_after_click_witness :
  transcription_boxes
    (log (rerun initial_machine
            (Some StartListening,
             {| speech := hears "hello"; polly := polly_refuses |})))
  = [ev_st_markdown "<div class='transcription-box'> hello</div>"].
Proof.
  apply (transcription_box_shows_transcript_after_click
           (Some StartListening)
           {| speech := hears "hello"; polly := polly_refuses |}
           initial_machine).
  reflexivity.
Defined.
